(** * project_ix: the tardy-request bot of [src/Lib/main.py]

    A shallow embedding of the validation helpers, the record store and the
    message and callback handlers of the bot, and the properties of the
    tardy-request lifecycle proved about them.

    Modelling conventions.
    - A Python [str] is a Rocq [string].  The character classes used by the
      code ([str.strip], [str.upper], [str.isdigit], the regex classes [\s],
      [\d] and [[A-Z]]) are Python's on the ASCII range; a byte above 127
      (part of the UTF-8 encoding of a non-ASCII character) is treated as a
      character that is neither whitespace, nor a digit, nor cased.
    - The SQLite tables are finite maps keyed by their primary key.
    - A value decoded from the HR backend's JSON is a scalar, or an opaque
      value known by its truth value, its [str()] and what SQLite makes of
      it.
    - A handler is a computation in a state-and-exception monad over a
      [World]: the two tables, the FSM context aiogram hands to the handler,
      and the log of outward effects (chat calls, HTTP posts, SQL writes),
      most recent first.  What the outside world answers (the clock, the HR
      backend, the delivery of a message to another chat) is read from an
      [Env].
    - Not modelled: [init_db] and the rendering of the employee notice to
      text.  The read-only listing [tardy_list] is no [Update] of the
      dispatcher below; it is modelled after the handlers, with the
      reading of stamps it relies on.
    - Replies to the chat the event came from ([message.answer],
      [cb.answer], [cb.message.edit_text]) are logged and do not fail; the
      code guards none of them.  [bot.send_message] to another chat and the
      HTTP posts can fail, as the code expects with its [try]/[except]. *)

From Stdlib Require Import ZArith String Ascii List Bool Lia.
From stdpp Require Import gmap strings pretty.

Open Scope string_scope.
Open Scope Z_scope.

(** ** Python strings on the ASCII range *)

Module PyStr.

Definition code (c : ascii) : Z := Z.of_N (N_of_ascii c).

(** [str.isspace] of one character: TAB..CR, FS..US and SPACE. *)
Definition isspace (c : ascii) : bool :=
  ((9 <=? code c) && (code c <=? 13)) || ((28 <=? code c) && (code c <=? 32)).

(** [\d] and [str.isdigit] on one character. *)
Definition isdigit_char (c : ascii) : bool :=
  (48 <=? code c) && (code c <=? 57).

(** [[A-Z]]. *)
Definition isupper_AZ (c : ascii) : bool :=
  (65 <=? code c) && (code c <=? 90).

Definition upper_char (c : ascii) : ascii :=
  if (97 <=? code c) && (code c <=? 122)
  then ascii_of_N (Z.to_N (code c - 32))
  else c.

Fixpoint upper (s : string) : string :=
  match s with
  | EmptyString => EmptyString
  | String c r => String (upper_char c) (upper r)
  end.

Fixpoint lstrip (s : string) : string :=
  match s with
  | EmptyString => EmptyString
  | String c r => if isspace c then lstrip r else s
  end.

Fixpoint rstrip (s : string) : string :=
  match s with
  | EmptyString => EmptyString
  | String c r =>
      match rstrip r with
      | EmptyString => if isspace c then EmptyString else String c EmptyString
      | r' => String c r'
      end
  end.

(** [s.strip()] *)
Definition strip (s : string) : string := rstrip (lstrip s).

Fixpoint all_chars (p : ascii -> bool) (s : string) : bool :=
  match s with
  | EmptyString => true
  | String c r => p c && all_chars p r
  end.

(** [s.isdigit()]: at least one character, all of them digits. *)
Definition isdigit (s : string) : bool :=
  match s with
  | EmptyString => false
  | _ => all_chars isdigit_char s
  end.

(** Truth value of a [str]. *)
Definition truthy (s : string) : bool :=
  match s with EmptyString => false | _ => true end.

Definition digit_val (c : ascii) : Z := code c - 48.

(** Two decimal digits, as [int] reads them. *)
Definition int2 (a b : ascii) : Z := 10 * digit_val a + digit_val b.

Definition int4 (a b c d : ascii) : Z :=
  1000 * digit_val a + 100 * digit_val b + 10 * digit_val c + digit_val d.

End PyStr.

(** ** The regular expressions of the module *)

Module PyRe.
Import PyStr.

Inductive cclass :=
| c_upper              (* [A-Z] *)
| c_digit              (* \d *)
| c_lit (c : ascii).   (* an escaped or plain literal *)

Definition in_class (k : cclass) (c : ascii) : bool :=
  match k with
  | c_upper => isupper_AZ c
  | c_digit => isdigit_char c
  | c_lit l => Ascii.eqb l c
  end.

(** [k{n}] at the head of [s]: what is left after it. *)
Fixpoint eat (k : cclass) (n : nat) (s : string) : option string :=
  match n with
  | O => Some s
  | S n' =>
      match s with
      | String c r => if in_class k c then eat k n' r else None
      | EmptyString => None
      end
  end.

(** A pattern [k1{n1} k2{n2} ...]. *)
Fixpoint eat_seq (p : list (cclass * nat)) (s : string) : option string :=
  match p with
  | nil => Some s
  | (k, n) :: p' =>
      match eat k n s with
      | Some r => eat_seq p' r
      | None => None
      end
  end.

(** [$] without [re.MULTILINE]: the end of the string, or just before a
    newline that ends it. *)
Definition at_dollar (r : string) : bool :=
  (r =? "")%string || (r =? String "010" "")%string.

(** [re.compile("^" p "$").match(s)] as a truth value. *)
Definition re_match (p : list (cclass * nat)) (s : string) : bool :=
  match eat_seq p s with
  | Some r => at_dollar r
  | None => false
  end.

(** [re.sub(r"\s+", "", s)]: every run of whitespace is removed. *)
Fixpoint sub_spaces (s : string) : string :=
  match s with
  | EmptyString => EmptyString
  | String c r => if isspace c then sub_spaces r else String c (sub_spaces r)
  end.

(** [re.search(r"\d{5,}", s)]: [run] is the run of digits being read,
    last digit first.  The leftmost run of five digits or more is
    returned whole (the quantifier is greedy). *)
Fixpoint search_digits_from (run : list ascii) (s : string) : option string :=
  match s with
  | EmptyString =>
      if (5 <=? Z.of_nat (length run)) then Some (string_of_list_ascii (rev run)) else None
  | String c r =>
      if isdigit_char c then search_digits_from (c :: run) r
      else if (5 <=? Z.of_nat (length run)) then Some (string_of_list_ascii (rev run))
      else search_digits_from nil r
  end.

Definition search_digits5 (s : string) : option string := search_digits_from nil s.

End PyRe.

Import PyStr PyRe.

(** ** Validation (ВАЛИДАЦИЯ) *)

Definition PASSPORT_RE : list (cclass * nat) := [(c_upper, 2%nat); (c_digit, 7%nat)].
Definition BIRTHDATE_RE : list (cclass * nat) :=
  [(c_digit, 2%nat); (c_lit ".", 1%nat); (c_digit, 2%nat); (c_lit ".", 1%nat); (c_digit, 4%nat)].
Definition TIME_RE : list (cclass * nat) :=
  [(c_digit, 2%nat); (c_lit ":", 1%nat); (c_digit, 2%nat)].

Definition normalize_passport (text : string) : string :=
  sub_spaces (upper (strip text)).


(** ** Dates and times ([datetime]) *)

Module PyDatetime.

Record date := mk_date { year : Z; month : Z; day : Z }.

(** [datetime.time]; [dtime] in the source. *)
Record time := dtime4 { hour : Z; minute : Z; second : Z; microsecond : Z }.

Record datetime := mk_datetime { date_of : date; time_of : time }.

(** [dtime(h, m)] *)
Definition dtime (h m : Z) : time := dtime4 h m 0 0.

(** Comparison of two naive times: that of the tuples
    (hour, minute, second, microsecond). *)
Definition time_cmp (a b : time) : comparison :=
  match hour a ?= hour b with
  | Eq => match minute a ?= minute b with
          | Eq => match second a ?= second b with
                  | Eq => microsecond a ?= microsecond b
                  | c => c
                  end
          | c => c
          end
  | c => c
  end.

(** [a <= b] *)
Definition time_le (a b : time) : bool :=
  match time_cmp a b with Gt => false | _ => true end.

(** [a < b] *)
Definition time_lt (a b : time) : bool :=
  match time_cmp a b with Lt => true | _ => false end.

Definition is_leap (y : Z) : bool :=
  (y mod 4 =? 0) && (negb (y mod 100 =? 0) || (y mod 400 =? 0)).

Definition days_in_month (y m : Z) : Z :=
  if m =? 2 then (if is_leap y then 29 else 28)
  else if (m =? 4) || (m =? 6) || (m =? 9) || (m =? 11) then 30
  else 31.

Definition next_day (d : date) : date :=
  if day d <? days_in_month (year d) (month d) then mk_date (year d) (month d) (day d + 1)
  else if month d <? 12 then mk_date (year d) (month d + 1) 1
  else mk_date (year d + 1) 1 1.

Definition prev_day (d : date) : date :=
  if 1 <? day d then mk_date (year d) (month d) (day d - 1)
  else if 1 <? month d then mk_date (year d) (month d - 1) (days_in_month (year d) (month d - 1))
  else mk_date (year d - 1) 12 31.

(** A time zone, as the code uses [ZoneInfo(TIMEZONE)]: its offset from
    UTC, in seconds, at a UTC date and time.  Python keeps an offset
    strictly within a day. *)
Definition tzinfo := datetime -> Z.

(** [utc.replace(tzinfo=UTC).astimezone(tz)], read as a naive value. *)
Definition astimezone (tz : tzinfo) (utc : datetime) : datetime :=
  let t := time_of utc in
  let secs := hour t * 3600 + minute t * 60 + second t + tz utc in
  let shift := secs / 86400 in
  let r := secs mod 86400 in
  let d := if shift =? 1 then next_day (date_of utc)
           else if shift =? -1 then prev_day (date_of utc)
           else date_of utc in
  mk_datetime d (dtime4 (r / 3600) (r mod 3600 / 60) (r mod 60) (microsecond t)).

Definition digit (n : Z) : ascii := ascii_of_N (Z.to_N (48 + n mod 10)).

(** [%02d], [%04d] and [%06d] *)
Definition pad2 (n : Z) : string := String (digit (n / 10)) (String (digit n) "").
Definition pad4 (n : Z) : string := pad2 (n / 100) +:+ pad2 n.
Definition pad6 (n : Z) : string := pad2 (n / 10000) +:+ pad4 n.

Definition fmt_date (d : date) : string :=
  pad4 (year d) +:+ "-" +:+ pad2 (month d) +:+ "-" +:+ pad2 (day d).

Definition fmt_hms (t : time) : string :=
  pad2 (hour t) +:+ ":" +:+ pad2 (minute t) +:+ ":" +:+ pad2 (second t).

(** [dt.strftime("%Y-%m-%d %H:%M:%S")] *)
Definition strftime_ymd_hms (dt : datetime) : string :=
  fmt_date (date_of dt) +:+ " " +:+ fmt_hms (time_of dt).

(** [dt.strftime("%H:%M")] *)
Definition strftime_hm (dt : datetime) : string :=
  pad2 (hour (time_of dt)) +:+ ":" +:+ pad2 (minute (time_of dt)).

(** [dt.isoformat()] of a naive value: the separator is [T], and the
    microseconds are printed when they are not zero. *)
Definition isoformat (dt : datetime) : string :=
  fmt_date (date_of dt) +:+ "T" +:+ fmt_hms (time_of dt) +:+
  (if microsecond (time_of dt) =? 0 then "" else "." +:+ pad6 (microsecond (time_of dt))).

(** [datetime.strptime(s, "%H:%M").time()] on a string of the shape
    [TIME_RE] lets through: the hour is 00..23 and the minute 00..59,
    anything else is a [ValueError]. *)
Definition strptime_hm (s : string) : option time :=
  match s with
  | String h1 (String h2 (String ":" (String m1 (String m2 EmptyString)))) =>
      if all_chars isdigit_char (String h1 (String h2 (String m1 (String m2 EmptyString))))
         && (int2 h1 h2 <=? 23) && (int2 m1 m2 <=? 59)
      then Some (dtime (int2 h1 h2) (int2 m1 m2))
      else None
  | _ => None
  end.

(** [datetime.strptime(s, "%d.%m.%Y")] succeeds, on a string of the shape
    [BIRTHDATE_RE] lets through: day 01..31, month 01..12, and the date
    exists (year 0000 does not). *)
Definition strptime_dmy_ok (s : string) : bool :=
  match s with
  | String d1 (String d2 (String "." (String m1 (String m2 (String "."
      (String y1 (String y2 (String y3 (String y4 EmptyString))))))))) =>
      let d := int2 d1 d2 in
      let m := int2 m1 m2 in
      let y := int4 y1 y2 y3 y4 in
      all_chars isdigit_char
        (String d1 (String d2 (String m1 (String m2
          (String y1 (String y2 (String y3 (String y4 EmptyString))))))))
      && (1 <=? m) && (m <=? 12) && (1 <=? d) && (d <=? days_in_month y m) && (1 <=? y)
  | _ => false
  end.

End PyDatetime.

Import PyDatetime.

Definition CUT_OFF : time := dtime 8 10.

Definition valid_birthdate (s : string) : bool :=
  if negb (re_match BIRTHDATE_RE s) then false
  else strptime_dmy_ok s.

Definition parse_time_hhmm (s : string) : option time :=
  if negb (re_match TIME_RE (strip s)) then None
  else strptime_hm (strip s).

(** ** Values decoded from the HR backend's JSON *)

(** A JSON value as Python holds it ([JNull] is [None]).  A float, an
    array or an object is kept by what the code can see of it: its truth
    value, its [str()], and the text SQLite keeps when it is bound to a
    TEXT column ([None] for an array or an object, which cannot be bound). *)
Inductive json :=
| JNull
| JBool (b : bool)
| JInt (n : Z)
| JStr (s : string)
| JOther (truth : bool) (shown : string) (bound : option string).

(** [bool(v)] *)
Definition json_truthy (v : json) : bool :=
  match v with
  | JNull => false
  | JBool b => b
  | JInt n => negb (n =? 0)
  | JStr s => truthy s
  | JOther t _ _ => t
  end.

(** [a or b] *)
Definition py_or (a b : json) : json := if json_truthy a then a else b.

(** [str(v)] *)
Definition py_str (v : json) : string :=
  match v with
  | JNull => "None"
  | JBool true => "True"
  | JBool false => "False"
  | JInt n => pretty n
  | JStr s => s
  | JOther _ shown _ => shown
  end.

(** The value SQLite keeps when [v] is bound to a TEXT column: NULL or a
    text; [None] when [sqlite3] cannot bind a value of that type. *)
Definition sql_text (v : json) : option (option string) :=
  match v with
  | JNull => Some None
  | JBool b => Some (Some (if b then "1" else "0"))
  | JInt n => Some (Some (pretty n))
  | JStr s => Some (Some s)
  | JOther _ _ (Some s) => Some (Some s)
  | JOther _ _ None => None
  end.

(** A column read back into Python. *)
Definition of_column (c : option string) : json :=
  match c with Some s => JStr s | None => JNull end.

(** What [resp.json(content_type=None)] gives: an object, or some other
    JSON value (which has no [get]). *)
Inductive js_value :=
| JsDict (d : gmap string json)
| JsOther.

(** ** The data model (БАЗА ДАННЫХ) *)

(** A row of [users]; the key [tg_id] is the key of the table. *)
Record User := mk_user {
  passport : string;
  birthdate : string;
  full_name : option string;
  registered_at : string;
  is_manager : bool;
  supervisor_tg_id : option string
}.

(** A row of [tardy_requests]; the key [id] is the key of the table. *)
Record TardyRequest := mk_tardy {
  employee_tg_id : string;
  manager_tg_id : option string;
  reason : string;
  start_time : option string;
  end_time : option string;
  submitted_at : string;
  status : string
}.

(** ** Conversation state ([StatesGroup]s and [FSMContext]) *)

Inductive State :=
| Reg_passport
| Reg_birthdate
| Tardy_waiting_reason
| Tardy_waiting_start
| Tardy_waiting_end.

Record FSMContext := mk_ctx {
  state : option State;
  data : gmap string string
}.

(** ** Outward effects *)

Inductive keyboard :=
| kb_main (is_manager : bool)       (* the reply keyboard of [kb_main] *)
| ikb_decision (req_id : Z).        (* the buttons [tardy_ok:id] and [tardy_rej:id] *)

(** The text of a message: a string, or the notice of
    [_format_employee_notice], kept by its arguments (the rendering, with
    [to_local_hm_from_submitted], is not modelled). *)
Inductive body :=
| Text (s : string)
| EmployeeNotice (r : TardyRequest) (emp_name mgr_name status_text status_emoji : string).

Inductive endpoint := ONEC_URL | ONEC_SYNC_URL | ONEC_DECISION_URL.

Inductive sql_write :=
| upsert_users (tg_id : string)
| delete_users (tg_id : string)
| update_users_supervisor (tg_id : string) (supervisor : option string)
| insert_tardy_requests (id : Z)
| update_tardy_status (id : Z) (status : string).

Inductive event :=
| Answer (text : string) (markup : option keyboard)            (* message.answer *)
| CbAnswer (text : string) (show_alert : bool)                 (* cb.answer *)
| EditText (text : string)                                     (* cb.message.edit_text *)
| SendMessage (chat : string) (b : body) (markup : option keyboard)  (* bot.send_message *)
| Post (url : endpoint) (payload : list (string * json))       (* session.post *)
| Sql (w : sql_write).                                         (* a committed write *)

(** ** Exceptions *)

Inductive exn :=
| ClientError (detail : string)       (* aiohttp: the transport failed *)
| TelegramError (detail : string)     (* the chat API refused a message *)
| KeyError (key : string)
| AttributeError (detail : string)
| IntegrityError (detail : string)    (* SQLite: a constraint failed *)
| InterfaceError (detail : string).   (* sqlite3: a parameter cannot be bound *)

(** [str(e)] *)
Definition exn_str (e : exn) : string :=
  match e with
  | ClientError d | TelegramError d | AttributeError d | IntegrityError d
  | InterfaceError d => d
  | KeyError k => "'" +:+ k +:+ "'"
  end.

(** ** The outside world *)

Record response := mk_response {
  resp_status : Z;
  resp_text : string;
  resp_json : option js_value   (* [None]: the body is not JSON *)
}.

Inductive http_outcome :=
| HttpError (detail : string)
| HttpOk (r : response).

Record Env := mk_env {
  TIMEZONE : tzinfo;                     (* the zone named by [TIMEZONE] *)
  utc_clock : nat -> datetime;           (* the k-th reading of the clock, in UTC *)
  http : endpoint -> http_outcome;       (* the HR backend's answer to a POST *)
  deliverable : string -> bool;          (* can [bot.send_message] reach this chat *)
  decision_url_set : bool                (* is [ONEC_DECISION_URL] configured *)
}.

(** ** The state of a handler run *)

Record World := mk_world {
  users : gmap string User;
  tardy_requests : gmap Z TardyRequest;
  tardy_seq : Z;            (* [sqlite_sequence] of [tardy_requests] *)
  ctx : FSMContext;         (* the FSM context of the chat the event came from *)
  clock_reads : nat;        (* how many times the clock was read *)
  log : list event          (* outward effects, most recent first *)
}.

Definition with_users (f : gmap string User -> gmap string User) (w : World) : World :=
  mk_world (f (users w)) (tardy_requests w) (tardy_seq w) (ctx w) (clock_reads w) (log w).

Definition with_tardy (f : gmap Z TardyRequest -> gmap Z TardyRequest) (s : Z) (w : World) : World :=
  mk_world (users w) (f (tardy_requests w)) s (ctx w) (clock_reads w) (log w).

Definition with_ctx (f : FSMContext -> FSMContext) (w : World) : World :=
  mk_world (users w) (tardy_requests w) (tardy_seq w) (f (ctx w)) (clock_reads w) (log w).

Definition with_event (e : event) (w : World) : World :=
  mk_world (users w) (tardy_requests w) (tardy_seq w) (ctx w) (clock_reads w) (e :: log w).

Definition with_tick (w : World) : World :=
  mk_world (users w) (tardy_requests w) (tardy_seq w) (ctx w) (S (clock_reads w)) (log w).

(** ** The monad of handlers *)

Inductive result (A : Type) :=
| Ok (a : A)
| Raised (e : exn).
Arguments Ok {A} a.
Arguments Raised {A} e.

Definition M (A : Type) : Type := World -> result A * World.

Definition ret {A} (a : A) : M A := fun w => (Ok a, w).

Definition bind {A B} (m : M A) (k : A -> M B) : M B :=
  fun w => match m w with
           | (Ok a, w') => k a w'
           | (Raised e, w') => (Raised e, w')
           end.

Definition raise {A} (e : exn) : M A := fun w => (Raised e, w).

(** [try: m  except Exception as e: h e] *)
Definition try_except {A} (m : M A) (h : exn -> M A) : M A :=
  fun w => match m w with
           | (Ok a, w') => (Ok a, w')
           | (Raised e, w') => h e w'
           end.

Notation "x <- m ;; k" := (bind m (fun x => k))
  (at level 100, m at next level, right associativity).
Notation "m ;;; k" := (bind m (fun _ => k))
  (at level 100, k at level 200, right associativity).

Definition gets {A} (f : World -> A) : M A := fun w => (Ok (f w), w).
Definition modify (f : World -> World) : M unit := fun w => (Ok tt, f w).
Definition emit (e : event) : M unit := modify (with_event e).

(** The world a handler leaves, and what it returned or raised. *)
Definition run {A} (m : M A) (w : World) : World := snd (m w).
Definition outcome {A} (m : M A) (w : World) : result A := fst (m w).

Definition nl : string := String "010" "".

(** ** Time helpers (TIMEZONE HELPERS) *)

Section Bot.

Variable env : Env.

(** [datetime.utcnow()] *)
Definition utcnow : M datetime :=
  fun w => (Ok (utc_clock env (clock_reads w)), with_tick w).

(** [datetime.now(ZoneInfo(TIMEZONE))] *)
Definition now_local_dt : M datetime :=
  fun w => (Ok (astimezone (TIMEZONE env) (utc_clock env (clock_reads w))), with_tick w).

Definition submitted_now_str : M string :=
  dt <- utcnow ;; ret (isoformat dt).

Definition now_local_hm : M string :=
  dt <- now_local_dt ;; ret (strftime_hm dt).

(** ** The record store *)

Definition get_user (tg_id : string) : M (option User) :=
  gets (fun w => users w !! tg_id).

Definition upsert_user (tg_id passport birthdate : string) (full_name : json)
    (is_manager : bool) (supervisor_tg_id : json) : M unit :=
  dt <- now_local_dt ;;
  match sql_text full_name, sql_text supervisor_tg_id with
  | Some full_name, Some supervisor_tg_id =>
      modify (with_users
        (<[tg_id := mk_user passport birthdate full_name (strftime_ymd_hms dt)
                      is_manager supervisor_tg_id]>)) ;;;
      emit (Sql (upsert_users tg_id))
  | _, _ => raise (InterfaceError "Error binding parameter: type is not supported")
  end.

Definition delete_user (tg_id : string) : M unit :=
  modify (with_users (delete tg_id)) ;;;
  emit (Sql (delete_users tg_id)).

(** The largest key of the table (0 when it is empty). *)
Definition max_rowid (t : gmap Z TardyRequest) : Z :=
  map_fold (fun k _ acc => Z.max k acc) 0 t.

(** The key an [INTEGER PRIMARY KEY AUTOINCREMENT] column gets. *)
Definition next_rowid (w : World) : Z :=
  1 + Z.max (tardy_seq w) (max_rowid (tardy_requests w)).

(** [reason] is [None] when the caller read it from a context that has
    none: the column is NOT NULL. *)
Definition create_tardy_request (employee_tg_id manager_tg_id : string)
    (reason : option string) (start_hm end_hm : option string) : M Z :=
  now <- submitted_now_str ;;
  match reason with
  | None => raise (IntegrityError "NOT NULL constraint failed: tardy_requests.reason")
  | Some reason =>
      req_id <- gets next_rowid ;;
      modify (with_tardy
        (<[req_id := mk_tardy employee_tg_id (Some manager_tg_id) reason start_hm end_hm
                       now "pending"]>) req_id) ;;;
      emit (Sql (insert_tardy_requests req_id)) ;;;
      ret req_id
  end.

Definition set_supervisor (s : option string) (u : User) : User :=
  mk_user (passport u) (birthdate u) (full_name u) (registered_at u) (is_manager u) s.

Definition set_user_supervisor (tg_id : string) (supervisor_tg_id : option string) : M unit :=
  modify (with_users (alter (set_supervisor supervisor_tg_id) tg_id)) ;;;
  emit (Sql (update_users_supervisor tg_id supervisor_tg_id)).

Definition get_tardy (req_id : Z) : M (option TardyRequest) :=
  gets (fun w => tardy_requests w !! req_id).

Definition set_status (s : string) (r : TardyRequest) : TardyRequest :=
  mk_tardy (employee_tg_id r) (manager_tg_id r) (reason r) (start_time r) (end_time r)
           (submitted_at r) s.

Definition set_tardy_status (req_id : Z) (status : string) : M unit :=
  modify (fun w => with_tardy (alter (set_status status) req_id) (tardy_seq w) w) ;;;
  emit (Sql (update_tardy_status req_id status)).

(** ** The HR backend (ВЗАИМОДЕЙСТВИЕ С 1С) *)

(** [session.post(url, json=payload)], then the body read as text and as
    JSON; a body that is not JSON reads as [{}]. *)
Definition post (url : endpoint) (payload : list (string * json)) : M (Z * js_value * string) :=
  emit (Post url payload) ;;;
  match http env url with
  | HttpError d => raise (ClientError d)
  | HttpOk r =>
      ret (resp_status r,
           match resp_json r with Some js => js | None => JsDict ∅ end,
           resp_text r)
  end.

(** The object behind [js.get]; any other value has no such attribute. *)
Definition js_dict (js : js_value) : M (gmap string json) :=
  match js with
  | JsDict d => ret d
  | JsOther => raise (AttributeError "object has no attribute 'get'")
  end.

(** [d.get(k)] *)
Definition get (d : gmap string json) (k : string) : json := default JNull (d !! k).

Definition register_in_1c (passport birthdate user_id : string) : M (Z * js_value * string) :=
  post ONEC_URL [("passport", JStr passport); ("birthdate", JStr birthdate);
                 ("user_id", JStr user_id)].

Definition sync_supervisor_from_1c (user_id : string) : M (option string) :=
  user <- get_user user_id ;;
  match user with
  | None => ret None
  | Some user =>
      if negb (truthy (passport user)) || negb (truthy (birthdate user)) then ret None
      else
        r <- post ONEC_SYNC_URL [("passport", JStr (passport user));
                                 ("birthdate", JStr (birthdate user))] ;;
        let '(_, js, _) := r in
        d <- js_dict js ;;
        let raw_id :=
          py_or (get d "supervisor_tg_id")
            (py_or (get d "manager_tg_id")
              (py_or (get d "managerId")
                (py_or (get d "supervisorId")
                  (py_or (get d "supervisor")
                    (py_or (get d "manager") (JStr "")))))) in
        let supervisor_tg_id := search_digits5 (py_str raw_id) in
        set_user_supervisor user_id supervisor_tg_id ;;;
        ret supervisor_tg_id
  end.

Definition send_decision_to_1c (req_id : Z) (r : TardyRequest) (decision emp_name mgr_name : string)
    : M unit :=
  if negb (decision_url_set env) then ret tt
  else
    dt <- now_local_dt ;;
    let payload :=
      [("req_id", JInt req_id);
       ("employee_tg_id", JStr (employee_tg_id r));
       ("manager_tg_id", JStr (py_str (of_column (manager_tg_id r))));
       ("employee_name", JStr emp_name);
       ("manager_name", JStr mgr_name);
       ("reason", JStr (reason r));
       ("start", of_column (start_time r));
       ("end", of_column (end_time r));
       ("submitted_at", JStr (submitted_at r));
       ("decided_at", JStr (strftime_ymd_hms dt));
       ("decision", JStr decision)] in
    try_except (post ONEC_DECISION_URL payload ;;; ret tt) (fun _ => ret tt).

(** ** The chat *)

(** A text message: who sent it ([str(message.from_user.id)]) and its text. *)
Record Message := mk_message { from_user : string; text : string }.

(** A press on an inline button: who pressed ([str(cb.from_user.id)]),
    the request id its data carries ([int(cb.data.split(":")[1])]) and
    the text of the message the button is under. *)
Record CallbackQuery := mk_cb { cb_from_user : string; cb_req_id : Z; cb_message_text : string }.

Definition answer (text : string) (markup : option keyboard) : M unit :=
  emit (Answer text markup).

Definition cb_answer (text : string) (show_alert : bool) : M unit :=
  emit (CbAnswer text show_alert).

Definition edit_text (text : string) : M unit := emit (EditText text).

Definition send_message (chat : string) (b : body) (markup : option keyboard) : M unit :=
  emit (SendMessage chat b markup) ;;;
  if deliverable env chat then ret tt
  else raise (TelegramError "chat not found").

(** [state.clear()], [state.set_state(s)], [state.update_data(k=v)] and
    [state.get_data()] *)
Definition state_clear : M unit := modify (with_ctx (fun _ => mk_ctx None ∅)).
Definition set_state (s : State) : M unit :=
  modify (with_ctx (fun c => mk_ctx (Some s) (data c))).
Definition update_data (k v : string) : M unit :=
  modify (with_ctx (fun c => mk_ctx (state c) (<[k := v]> (data c)))).
Definition get_data : M (gmap string string) := gets (fun w => data (ctx w)).

(** [try: m  finally: f] *)
Definition try_finally {A} (m : M A) (f : M unit) : M A :=
  fun w => match m w with
           | (r, w') => match f w' with
                        | (Ok _, w'') => (r, w'')
                        | (Raised e, w'') => (Raised e, w'')
                        end
           end.

(** [int(s)] of a string of digits. *)
Fixpoint int_from (acc : Z) (s : string) : Z :=
  match s with
  | EmptyString => acc
  | String c r => int_from (10 * acc + digit_val c) r
  end.
Definition py_int (s : string) : Z := int_from 0 s.

(** ** Handlers (ХЭНДЛЕРЫ) *)

(** [(row or {}).get("full_name") or fallback] *)
Definition name_or (u : option User) (fallback : string) : string :=
  match u with
  | Some u => py_str (py_or (of_column (full_name u)) (JStr fallback))
  | None => fallback
  end.

Definition start (message : Message) : M unit :=
  let user_id := from_user message in
  user <- get_user user_id ;;
  match user with
  | Some user =>
      state_clear ;;;
      answer ("✅ Вы уже зарегистрированы как: " +:+ name_or (Some user) "сотрудник")
             (Some (kb_main (is_manager user)))
  | None =>
      state_clear ;;;
      set_state Reg_passport ;;;
      answer "Введите серию и номер паспорта (пример: AD1234567)." None
  end.

Definition reset_registration (message : Message) : M unit :=
  let user_id := from_user message in
  delete_user user_id ;;;
  state_clear ;;;
  set_state Reg_passport ;;;
  answer ("🔁 Регистрация сброшена." +:+ nl +:+
          "Введите серию и номер паспорта (пример: AD1234567).") None.

Definition refresh_from_1c_by_tg (user_id : string) : M (option (json * bool * json)) :=
  user <- get_user user_id ;;
  match user with
  | None => ret None
  | Some user =>
      r <- register_in_1c (passport user) (birthdate user) user_id ;;
      let '(status, js, _) := r in
      if status =? 200 then
        d <- js_dict js ;;
        let name :=
          py_or (get d "fullName")
            (py_or (get d "name") (py_or (of_column (full_name user)) (JStr "сотрудник"))) in
        let is_manager :=
          json_truthy (py_or (get d "isManager")
                        (py_or (get d "is_manager")
                          (py_or (get d "Руководитель") (JBool false)))) in
        let supervisor_tg_id :=
          py_or (get d "supervisor_tg_id")
            (py_or (get d "manager_tg_id") (of_column (supervisor_tg_id user))) in
        upsert_user user_id (passport user) (birthdate user) name is_manager supervisor_tg_id ;;;
        ret (Some (name, is_manager, supervisor_tg_id))
      else ret None
  end.

Definition refresh_user (message : Message) : M unit :=
  let user_id := from_user message in
  updated <- refresh_from_1c_by_tg user_id ;;
  match updated with
  | Some (fullName, isManager, _) =>
      answer ("🔄 Данные обновлены из 1С." +:+ nl +:+
              "Сотрудник: " +:+ py_str fullName +:+ nl +:+
              "Руководитель: " +:+ (if isManager then "да" else "нет"))
             (Some (kb_main isManager))
  | None =>
      answer "⚠️ Не удалось обновить данные из 1С. Возможно, вы не зарегистрированы или 1С вернула не 200." None
  end.

Definition whoami (message : Message) : M unit :=
  answer ("Ваш Telegram ID: " +:+ from_user message) None.

Definition sync_with_1c (message : Message) : M unit :=
  let user_id := from_user message in
  user <- get_user user_id ;;
  match user with
  | None => answer "Сначала нужно зарегистрироваться: /start" None
  | Some user =>
      answer "🔄 Синхронизирую с 1С…" None ;;;
      try_except
        (supervisor_id <- sync_supervisor_from_1c user_id ;;
         match supervisor_id with
         | Some supervisor_id =>
             answer ("✅ Синхронизация завершена." +:+ nl +:+
                     "Руководитель (TG ID): " +:+ supervisor_id)
                    (Some (kb_main (is_manager user)))
         | None => answer "⚠️ 1С не вернула корректный ID руководителя." None
         end)
        (fun e => answer ("⚠️ Ошибка синхронизации: " +:+ exn_str e) None)
  end.

(** Registered for [Reg.passport]. *)
Definition ask_birthdate (message : Message) : M unit :=
  let p := normalize_passport (text message) in
  if negb (re_match PASSPORT_RE p) then
    answer "❌ Неверный формат. Пример: AD1234567 (2 буквы + 7 цифр). Попробуйте ещё раз." None
  else
    update_data "passport" p ;;;
    set_state Reg_birthdate ;;;
    answer "Введите дату рождения (пример: 30.09.2005)." None.

(** Registered for [Reg.birthdate]. *)
Definition do_register (message : Message) : M unit :=
  let b := strip (text message) in
  if negb (valid_birthdate b) then
    answer "❌ Неверный формат даты. Нужен дд.мм.гггг (например: 30.09.2005)." None
  else
    data <- get_data ;;
    match data !! "passport" with
    | None => raise (KeyError "passport")
    | Some passport =>
        let user_id := from_user message in
        answer "🔄 Выполняется синхронизация с 1С…" None ;;;
        try_except
          (r <- register_in_1c passport b user_id ;;
           let '(status, js, raw) := r in
           if status =? 200 then
             d <- js_dict js ;;
             let name := py_or (get d "fullName") (py_or (get d "name") (JStr "сотрудник")) in
             let is_manager :=
               json_truthy (py_or (get d "isManager")
                             (py_or (get d "is_manager")
                               (py_or (get d "Руководитель") (JBool false)))) in
             let supervisor_tg_id := py_or (get d "supervisor_tg_id") (get d "manager_tg_id") in
             upsert_user user_id passport b name is_manager supervisor_tg_id ;;;
             answer ("✅ Регистрация успешна" +:+ nl +:+ "👤 Сотрудник: " +:+ py_str name)
                    (Some (kb_main is_manager)) ;;;
             state_clear
           else if (status =? 404) || (status =? 204) then
             answer "❌ Сотрудник с такими данными не найден." None
           else if status =? 409 then
             answer "⚠️ Найдено несколько сотрудников (дубликаты). Обратитесь к администратору." None
           else if status =? 400 then
             d <- js_dict js ;;
             let reason := py_or (get d "reason") (JStr "Неверные данные.") in
             answer ("⚠️ Ошибка проверки: " +:+ py_str reason) None
           else
             answer ("⚠️ Неожиданный ответ 1С (" +:+ pretty status +:+ "): " +:+
                     String.substring 0 500 raw) None)
          (fun e => answer ("⚠️ Ошибка соединения с 1С: " +:+ exn_str e) None)
    end.

(** «Я опоздал» *)
Definition tardy_start (message : Message) : M unit :=
  let user_id := from_user message in
  user <- get_user user_id ;;
  match user with
  | None => answer "Сначала нужно зарегистрироваться: /start" None
  | Some _ =>
      now <- now_local_dt ;;
      let now_t := time_of now in
      if time_le now_t CUT_OFF then
        answer "⏱ Опоздание в пределах допустимого. Уведомление не требуется." None
      else
        set_state Tardy_waiting_reason ;;;
        answer "Укажите причину опоздания одним сообщением:" None
  end.

(** Registered for [Tardy.waiting_reason]. *)
Definition tardy_reason (message : Message) : M unit :=
  let reason := strip (text message) in
  if negb (truthy reason) then
    answer "Причина не может быть пустой. Укажите причину опоздания:" None
  else
    update_data "tardy_reason" reason ;;;
    set_state Tardy_waiting_start ;;;
    answer "Укажите *время начала* опоздания в формате HH:MM (например, 09:20):" None.

(** Registered for [Tardy.waiting_start]. *)
Definition tardy_start_time (message : Message) : M unit :=
  let s := strip (text message) in
  match parse_time_hhmm s with
  | None =>
      answer "⏱ Неверный формат. Введите время начала в формате HH:MM (например, 09:20):" None
  | Some _ =>
      update_data "tardy_start" s ;;;
      set_state Tardy_waiting_end ;;;
      answer "Теперь укажите *время конца* опоздания в формате HH:MM (например, 09:45):" None
  end.

(** Registered for [Tardy.waiting_end]. *)
Definition tardy_end_time (message : Message) : M unit :=
  let e_str := strip (text message) in
  match parse_time_hhmm e_str with
  | None =>
      answer "⏱ Неверный формат. Введите время конца в формате HH:MM (например, 09:45):" None
  | Some e_time =>
      data <- get_data ;;
      let start_str := data !! "tardy_start" in
      let reason := data !! "tardy_reason" in
      let user_id := from_user message in
      user <- get_user user_id ;;
      (* финальная валидация *)
      let s_time :=
        match start_str with
        | Some s => if truthy s then parse_time_hhmm s else None
        | None => None
        end in
      match s_time with
      | None =>
          answer "Не удалось прочитать время начала. Попробуйте заново: «Я опоздал»." None ;;;
          state_clear
      | Some s_time =>
          if time_lt e_time s_time then
            answer "Время конца не может быть раньше начала. Введите время конца ещё раз (HH:MM):" None
          else
            match user with
            | None =>
                answer "Сначала зарегистрируйтесь: /start" None ;;;
                state_clear
            | Some user =>
                let manager_tg_id :=
                  strip (py_str (py_or (of_column (supervisor_tg_id user)) (JStr ""))) in
                if negb (isdigit manager_tg_id) then
                  answer "В системе не указан корректный Telegram ID руководителя." None ;;;
                  state_clear
                else
                  (* сохраняем заявку *)
                  req_id <- create_tardy_request user_id manager_tg_id reason start_str (Some e_str) ;;
                  (* уведомляем руководителя *)
                  hm <- now_local_hm ;;
                  let text_for_manager :=
                    "Новый запрос на опоздание" +:+ nl +:+
                    "Сотрудник: " +:+ py_str (of_column (full_name user)) +:+ nl +:+
                    "Период: " +:+ py_str (of_column start_str) +:+ "–" +:+ e_str +:+ nl +:+
                    "Причина: " +:+ py_str (of_column reason) +:+ nl +:+
                    "Отправлено: " +:+ hm in
                  try_finally
                    (try_except
                       (send_message (pretty (py_int manager_tg_id)) (Text text_for_manager)
                                     (Some (ikb_decision req_id)) ;;;
                        answer "✅ Запрос отправлен руководителю." None)
                       (fun _ =>
                          answer "⚠️ Не удалось отправить руководителю (возможно, он ещё не зарегистрирован в боте)." None))
                    state_clear
            end
      end
  end.

(** The two callback handlers differ by the status written and by their
    labels only: [tardy_decide status label status_text emoji ack] is their
    common body. *)
Definition tardy_decide (new_status label status_text emoji ack : string) (cb : CallbackQuery)
    : M unit :=
  let req_id := cb_req_id cb in
  r <- get_tardy req_id ;;
  match r with
  | None => cb_answer "Заявка не найдена или уже обработана" true
  | Some r =>
      if negb (status r =? "pending")%string then
        cb_answer "Заявка не найдена или уже обработана" true
      else if negb (cb_from_user cb =? py_str (of_column (manager_tg_id r)))%string then
        cb_answer "Недостаточно прав для этой заявки" true
      else
        set_tardy_status req_id new_status ;;;
        edit_text (cb_message_text cb +:+ nl +:+ nl +:+ "Статус: " +:+ label) ;;;
        (* уведомление сотруднику (подробное) *)
        emp <- get_user (employee_tg_id r) ;;
        mgr <- match manager_tg_id r with
               | Some m => get_user m
               | None => ret None
               end ;;
        let emp_name := name_or emp (employee_tg_id r) in
        let mgr_name := name_or mgr (py_str (of_column (manager_tg_id r))) in
        let msg_emp := EmployeeNotice r emp_name mgr_name status_text emoji in
        try_except (send_message (employee_tg_id r) msg_emp None) (fun _ => ret tt) ;;;
        (* запись решения в 1С *)
        send_decision_to_1c req_id r new_status emp_name mgr_name ;;;
        cb_answer ack false
  end.

(** Callback data [tardy_ok:<id>] *)
Definition tardy_approve (cb : CallbackQuery) : M unit :=
  tardy_decide "approved" "✅ Одобрено" "Одобрено" "✅" "Одобрено" cb.

(** Callback data [tardy_rej:<id>] *)
Definition tardy_reject (cb : CallbackQuery) : M unit :=
  tardy_decide "rejected" "❌ Отклонено" "Отказано" "❌" "Отклонено" cb.

End Bot.

(** ** Events

    An update reaching the dispatcher, by the handler that takes it.  (The
    listing of pending requests, [tardy_list], only reads the store and is
    modelled apart, after these.) *)
Inductive Update :=
| on_start (m : Message)
| on_reset (m : Message)
| on_refresh (m : Message)
| on_sync (m : Message)
| on_whoami (m : Message)
| on_passport (m : Message)
| on_birthdate (m : Message)
| on_tardy (m : Message)
| on_reason (m : Message)
| on_start_time (m : Message)
| on_end_time (m : Message)
| on_tardy_ok (cb : CallbackQuery)
| on_tardy_rej (cb : CallbackQuery).

Definition handle (env : Env) (u : Update) : M unit :=
  match u with
  | on_start m => start m
  | on_reset m => reset_registration m
  | on_refresh m => refresh_user env m
  | on_sync m => sync_with_1c env m
  | on_whoami m => whoami m
  | on_passport m => ask_birthdate m
  | on_birthdate m => do_register env m
  | on_tardy m => tardy_start env m
  | on_reason m => tardy_reason m
  | on_start_time m => tardy_start_time m
  | on_end_time m => tardy_end_time env m
  | on_tardy_ok cb => tardy_approve env cb
  | on_tardy_rej cb => tardy_reject env cb
  end.

(** A sequence of updates, each handled against what the outside world
    answers at that time; an exception ends its handler, not the bot. *)
Fixpoint handle_all (us : list (Env * Update)) (w : World) : World :=
  match us with
  | nil => w
  | (env, u) :: us' => handle_all us' (run (handle env u) w)
  end.

(** ** [datetime.strptime] on a date with a time

    [_strptime] turns the format into a regular expression (a group of
    alternatives for a directive, [\s+] for a run of whitespace of the
    format, the other characters literally), compiles it with
    [re.IGNORECASE], matches it at the head of the string, and refuses
    the string when the match leaves a rest.  The values it reads are
    then given to the constructor of [datetime], which checks them.
    Every refusal is a [ValueError]. *)

Module PyStrptime.
Import PyStr PyDatetime.

(** The regex engine tries the alternatives of a group from left to
    right and a greedy repetition from its longest run down, and comes
    back to the next possibility when the rest of the pattern fails.  A
    pattern item gives the matches it has at the head of [s], in that
    order, each with what it read and what is left of [s]. *)
Definition matcher (A : Type) : Type := string -> list (A * string).

Definition yield {A} (a : A) : matcher A := fun s => [(a, s)].

Definition then_ {A B} (p : matcher A) (k : A -> matcher B) : matcher B :=
  fun s => flat_map (fun ar => k (fst ar) (snd ar)) (p s).

Definition alt {A} (p q : matcher A) : matcher A := fun s => (p s ++ q s)%list.

Notation "x <~ p ;; k" := (then_ p (fun x => k))
  (at level 100, p at next level, right associativity).

(** One character of a class. *)
Definition chr (p : ascii -> bool) : matcher ascii :=
  fun s => match s with
           | String c r => if p c then [(c, r)] else []
           | EmptyString => []
           end.

(** [[lo-hi]], for two digits [lo] and [hi] *)
Definition digit_in (lo hi : Z) (c : ascii) : bool :=
  (48 + lo <=? code c) && (code c <=? 48 + hi).

(** A literal character of the pattern *)
Definition exactly (l c : ascii) : bool := Ascii.eqb l c.

(** A literal character of the format, under [re.IGNORECASE] *)
Definition lit (l : ascii) : matcher ascii :=
  chr (fun c => Ascii.eqb (upper_char l) (upper_char c)).

(** Two characters read as a number, and one. *)
Definition d2 (p1 p2 : ascii -> bool) : matcher Z :=
  a <~ chr p1 ;; b <~ chr p2 ;; yield (int2 a b).

Definition d1 (p : ascii -> bool) : matcher Z :=
  a <~ chr p ;; yield (digit_val a).

(** [%Y]: [\d\d\d\d] *)
Definition dir_Y : matcher Z :=
  a <~ chr isdigit_char ;; b <~ chr isdigit_char ;;
  c <~ chr isdigit_char ;; d <~ chr isdigit_char ;;
  yield (int4 a b c d).

(** [%m]: [1[0-2]|0[1-9]|[1-9]] *)
Definition dir_m : matcher Z :=
  alt (d2 (exactly "1") (digit_in 0 2))
 (alt (d2 (exactly "0") (digit_in 1 9))
      (d1 (digit_in 1 9))).

(** [%d]: [3[0-1]|[1-2]\d|0[1-9]|[1-9]| [1-9]] *)
Definition dir_d : matcher Z :=
  alt (d2 (exactly "3") (digit_in 0 1))
 (alt (d2 (digit_in 1 2) isdigit_char)
 (alt (d2 (exactly "0") (digit_in 1 9))
 (alt (d1 (digit_in 1 9))
      (_ <~ chr (exactly " ") ;; d1 (digit_in 1 9))))).

(** [%H]: [2[0-3]|[0-1]\d|\d] *)
Definition dir_H : matcher Z :=
  alt (d2 (exactly "2") (digit_in 0 3))
 (alt (d2 (digit_in 0 1) isdigit_char)
      (d1 isdigit_char)).

(** [%M]: [[0-5]\d|\d] *)
Definition dir_M : matcher Z :=
  alt (d2 (digit_in 0 5) isdigit_char) (d1 isdigit_char).

(** [%S]: [6[0-1]|[0-5]\d|\d] *)
Definition dir_S : matcher Z :=
  alt (d2 (exactly "6") (digit_in 0 1))
 (alt (d2 (digit_in 0 5) isdigit_char)
      (d1 isdigit_char)).

(** [[0-9]{0,n}], greedy, after the digits [acc] *)
Fixpoint digits_upto (n : nat) (acc : string) (s : string) : list (string * string) :=
  match n with
  | O => [(acc, s)]
  | S n' =>
      match s with
      | String c r =>
          if digit_in 0 9 c
          then (digits_upto n' (acc +:+ String c "") r ++ [(acc, s)])%list
          else [(acc, s)]
      | EmptyString => [(acc, s)]
      end
  end.

(** The digits of [%f], padded with zeros on the right to six, and read
    as a number of microseconds. *)
Fixpoint pad_right (n : nat) (s : string) : string :=
  match n, s with
  | O, _ => s
  | S n', String c r => String c (pad_right n' r)
  | S n', EmptyString => String "0" (pad_right n' EmptyString)
  end.

Fixpoint int_of (acc : Z) (s : string) : Z :=
  match s with
  | EmptyString => acc
  | String c r => int_of (10 * acc + digit_val c) r
  end.

(** [%f]: [[0-9]{1,6}] *)
Definition dir_f : matcher Z :=
  c <~ chr (digit_in 0 9) ;;
  ds <~ digits_upto 5 (String c "") ;;
  yield (int_of 0 (pad_right 6 ds)).

(** [\s*] and [\s+], greedy *)
Fixpoint spaces_star (s : string) : list (unit * string) :=
  match s with
  | String c r => if isspace c then (spaces_star r ++ [(tt, s)])%list else [(tt, s)]
  | EmptyString => [(tt, s)]
  end.

Definition spaces_plus : matcher unit :=
  _ <~ chr isspace ;; spaces_star.

(** What the groups of a match hold. *)
Record fields := mk_fields {
  f_Y : Z; f_m : Z; f_d : Z; f_H : Z; f_M : Z; f_S : Z; f_f : Z
}.

(** [%Y-%m-%d] *)
Definition ymd : matcher date :=
  Y <~ dir_Y ;; _ <~ lit "-" ;; m <~ dir_m ;; _ <~ lit "-" ;; d <~ dir_d ;;
  yield (mk_date Y m d).

(** [%H:%M:%S] *)
Definition hms : matcher (Z * Z * Z) :=
  H <~ dir_H ;; _ <~ lit ":" ;; M <~ dir_M ;; _ <~ lit ":" ;; S <~ dir_S ;;
  yield (H, M, S).

(** ["%Y-%m-%d %H:%M:%S"] *)
Definition fmt_space : matcher datetime :=
  d <~ ymd ;; _ <~ spaces_plus ;; t <~ hms ;;
  yield (mk_datetime d (dtime4 (fst (fst t)) (snd (fst t)) (snd t) 0)).

(** ["%Y-%m-%dT%H:%M:%S.%f"] *)
Definition fmt_T_f : matcher datetime :=
  d <~ ymd ;; _ <~ lit "T" ;; t <~ hms ;; _ <~ lit "." ;; f <~ dir_f ;;
  yield (mk_datetime d (dtime4 (fst (fst t)) (snd (fst t)) (snd t) f)).

(** ["%Y-%m-%dT%H:%M:%S"] *)
Definition fmt_T : matcher datetime :=
  d <~ ymd ;; _ <~ lit "T" ;; t <~ hms ;;
  yield (mk_datetime d (dtime4 (fst (fst t)) (snd (fst t)) (snd t) 0)).

(** What [datetime(...)] accepts. *)
Definition valid_date (d : date) : bool :=
  (1 <=? year d) && (year d <=? 9999) && (1 <=? month d) && (month d <=? 12)
  && (1 <=? day d) && (day d <=? days_in_month (year d) (month d)).

Definition valid_time (t : time) : bool :=
  (0 <=? hour t) && (hour t <=? 23) && (0 <=? minute t) && (minute t <=? 59)
  && (0 <=? second t) && (second t <=? 59)
  && (0 <=? microsecond t) && (microsecond t <=? 999999).

Definition valid_datetime (dt : datetime) : bool :=
  valid_date (date_of dt) && valid_time (time_of dt).

(** [datetime.strptime(s, fmt)]; [None] is [ValueError]: the pattern does
    not match, its first match leaves a rest, or the values read are no
    date and time. *)
Definition strptime (fmt : matcher datetime) (s : string) : option datetime :=
  match fmt s with
  | [] => None
  | (dt, rest) :: _ =>
      if (rest =? "")%string && valid_datetime dt then Some dt else None
  end.

(** [dt.replace(tzinfo=UTC).astimezone(tz)]: [None] is the
    [OverflowError] of a local value outside the years 1..9999. *)
Definition astimezone_checked (tz : tzinfo) (utc : datetime) : option datetime :=
  let l := astimezone tz utc in
  if (1 <=? year (date_of l)) && (year (date_of l) <=? 9999) then Some l else None.

End PyStrptime.

Import PyStrptime.

(** [c in s], for one character *)
Fixpoint has_char (c : ascii) (s : string) : bool :=
  match s with
  | EmptyString => false
  | String x r => Ascii.eqb c x || has_char c r
  end.

(** The first format that reads [s]. *)
Fixpoint first_parsed (fmts : list (matcher datetime)) (s : string) : option datetime :=
  match fmts with
  | [] => None
  | fmt :: fmts' =>
      match strptime fmt s with
      | Some dt => Some dt
      | None => first_parsed fmts' s
      end
  end.

(** ** The listing of pending requests *)

(** How a handler of this part ends: it returns, or the [OverflowError]
    of [astimezone] leaves it. *)
Inductive ended := Returned | OverflowError.

Section Listing.

Variable env : Env.

(** [None] is the [OverflowError] of [astimezone], which the function
    lets through. *)
Definition to_local_hm_from_submitted (s : string) : option string :=
  if negb (truthy s) then Some "—"
  else
    let fmts := [fmt_space; fmt_T_f; fmt_T] in
    match first_parsed fmts s with
    | None => Some s   (* как есть *)
    | Some dt =>
        if has_char "T" s then
          match astimezone_checked (TIMEZONE env) dt with
          | Some l => Some (strftime_hm l)
          | None => None
          end
        else Some (strftime_hm dt)
    end.

(** [c or "—"], of a column *)
Definition or_dash (c : option string) : string :=
  py_str (py_or (of_column c) (JStr "—")).

(** Two TEXT values under SQLite's BINARY collation: byte by byte, a
    prefix first. *)
Definition text_lt (a b : string) : bool :=
  match String.compare a b with Lt => true | _ => false end.

(** [ORDER BY submitted_at DESC].  SQLite leaves open the order of two
    rows with the same [submitted_at]; here the row met first stays
    first. *)
Fixpoint insert_desc (x : Z * TardyRequest) (l : list (Z * TardyRequest))
    : list (Z * TardyRequest) :=
  match l with
  | [] => [x]
  | y :: l' =>
      if text_lt (submitted_at (snd x)) (submitted_at (snd y)) then y :: insert_desc x l'
      else x :: l
  end.

Definition order_by_submitted_at_desc (rows : list (Z * TardyRequest))
    : list (Z * TardyRequest) :=
  fold_right insert_desc [] rows.

(** [WHERE manager_tg_id = ? AND status = 'pending'] *)
Definition is_pending_for (manager : string) (row : Z * TardyRequest) : bool :=
  match manager_tg_id (snd row) with
  | Some m => (m =? manager)%string && (status (snd row) =? "pending")%string
  | None => false
  end.

(** The rows come with their [id]. *)
Definition get_pending_tardy_for_manager (manager : string) : M (list (Z * TardyRequest)) :=
  gets (fun w =>
    order_by_submitted_at_desc
      (List.filter (is_pending_for manager) (map_to_list (tardy_requests w)))).

(** The text of one row of the listing. *)
Definition listing_text (id : Z) (r : TardyRequest) (emp_name local_hm : string) : string :=
  let period := or_dash (start_time r) +:+ "–" +:+ or_dash (end_time r) in
  "Запрос #" +:+ pretty id +:+ nl +:+
  "Сотрудник: " +:+ emp_name +:+ nl +:+
  "Период: " +:+ period +:+ nl +:+
  "Причина: " +:+ reason r +:+ nl +:+
  "Отправлено: " +:+ local_hm.

(** [for r in pending: ...] *)
Fixpoint list_rows (pending : list (Z * TardyRequest)) : M ended :=
  match pending with
  | [] => ret Returned
  | row :: rest =>
      let r := snd row in
      emp <- get_user (employee_tg_id r) ;;
      let emp_name :=
        match emp with
        | Some emp => py_str (of_column (full_name emp))
        | None => employee_tg_id r
        end in
      match to_local_hm_from_submitted (submitted_at r) with
      | None => ret OverflowError
      | Some local_hm =>
          answer (listing_text (fst row) r emp_name local_hm)
                 (Some (ikb_decision (fst row))) ;;;
          list_rows rest
      end
  end.

(** The button «Запросы на опоздание» *)
Definition tardy_list (message : Message) : M ended :=
  let manager_id := from_user message in
  me <- get_user manager_id ;;
  if negb (match me with Some me => is_manager me | None => false end) then
    answer "Эта функция доступна только руководителям." None ;;;
    ret Returned
  else
    pending <- get_pending_tardy_for_manager manager_id ;;
    match pending with
    | [] => answer "Нет новых запросов." None ;;; ret Returned
    | _ => list_rows pending
    end.

End Listing.

(** * Vocabulary of the properties *)

(** The SQL writes of a log. *)
Fixpoint writes (l : list event) : list sql_write :=
  match l with
  | nil => nil
  | Sql q :: l' => q :: writes l'
  | _ :: l' => writes l'
  end.

(** ** The approval handler *)

Inductive decision := Approve | Reject.

Definition handler_of (d : decision) (env : Env) : CallbackQuery -> M unit :=
  match d with
  | Approve => tardy_approve env
  | Reject => tardy_reject env
  end.

Definition status_of (d : decision) : string :=
  match d with
  | Approve => "approved"
  | Reject => "rejected"
  end.

(** [r["status"]] of request [id], if there is such a request. *)
Definition status_at (w : World) (id : Z) : option string :=
  status <$> tardy_requests w !! id.

Definition already_decided : event := CbAnswer "Заявка не найдена или уже обработана" true.
Definition not_authorized : event := CbAnswer "Недостаточно прав для этой заявки" true.

(** The acting identity is the approver the request was created with. *)
Definition is_approver_of (cb : CallbackQuery) (r : TardyRequest) : Prop :=
  cb_from_user cb = py_str (of_column (manager_tg_id r)).

(** Requests that left [pending] are the same in [w']. *)
Definition decided_kept (w w' : World) : Prop :=
  forall id r, tardy_requests w !! id = Some r -> status r <> "pending" ->
               tardy_requests w' !! id = Some r.

(** ** The tardy flow *)

Definition no_notification_required : event :=
  Answer "⏱ Опоздание в пределах допустимого. Уведомление не требуется." None.

Definition ask_end_again : event :=
  Answer "Время конца не может быть раньше начала. Введите время конца ещё раз (HH:MM):" None.


(** The local time of day [tardy_start] compares with the cut-off. *)
Definition local_time (env : Env) (w : World) : time :=
  time_of (astimezone (TIMEZONE env) (utc_clock env (clock_reads w))).


(** What a handler can do to the table of requests: nothing, insert a row
    under a fresh key, or move one pending row to a new status. *)
Inductive tardy_step (w w' : World) : Prop :=
| tardy_same : tardy_requests w' = tardy_requests w -> tardy_step w w'
| tardy_insert r :
    tardy_requests w' = <[next_rowid w := r]> (tardy_requests w) -> tardy_step w w'
| tardy_decided id r st :
    tardy_requests w !! id = Some r -> status r = "pending" ->
    tardy_requests w' = alter (set_status st) id (tardy_requests w) -> tardy_step w w'.


(** ** Proof automation *)

Ltac unfold_store :=
  unfold get_user, get_tardy, set_tardy_status, set_user_supervisor, upsert_user, delete_user,
    create_tardy_request, submitted_now_str, now_local_hm, now_local_dt, utcnow.

Ltac unfold_chat :=
  unfold answer, cb_answer, edit_text, send_message, state_clear, set_state, update_data, get_data.

Ltac unfold_m :=
  unfold run, outcome, try_finally, try_except, bind, ret, raise, gets, modify, emit.

Ltac step := unfold_store; unfold_chat; unfold_m; simpl.

(** Case analysis on the innermost scrutinee of the goal. *)
Ltac inner_case :=
  match goal with
  | |- context [match ?x with _ => _ end] =>
      lazymatch x with
      | context [match _ with _ => _ end] => fail
      | _ => destruct x eqn:?
      end
  end.

Ltac cases := repeat (simpl; try inner_case).

(** ** Sample data *)

(** Asia/Tashkent, the default [TIMEZONE]: five hours east of UTC. *)
Definition tashkent : tzinfo := fun _ => 18000.

(** The clock reads [h:m:s] UTC on 2024-03-05; the HR backend is
    unreachable; every chat can be reached. *)
Definition env_at (h m s : Z) : Env :=
  mk_env tashkent
         (fun _ => mk_datetime (mk_date 2024 3 5) (dtime4 h m s 0))
         (fun _ => HttpError "Cannot connect to host")
         (fun _ => true)
         false.

(** 04:00:00 UTC, 09:00 in Tashkent. *)
Definition sample_env : Env := env_at 4 0 0.

Definition employee : User :=
  mk_user "AD1234567" "30.09.2005" (Some "Employee") "2024-03-01 10:00:00" false (Some "200").

Definition manager : User :=
  mk_user "AB7654321" "01.02.1980" (Some "Manager") "2024-03-01 09:00:00" true None.

Definition sample_users : gmap string User :=
  <["100" := employee]> (<["200" := manager]> ∅).

Definition sample_request : TardyRequest :=
  mk_tardy "100" (Some "200") "traffic" (Some "09:20") (Some "09:45")
           "2024-03-05T04:00:00" "pending".

(** One pending request, number 1, from employee 100 to approver 200. *)
Definition sample_world : World :=
  mk_world sample_users (<[1 := sample_request]> ∅) 1 (mk_ctx None ∅) 0 nil.

Definition press (who : string) (req_id : Z) : CallbackQuery :=
  mk_cb who req_id "Новый запрос на опоздание".

(** The same world after approver 200 approved request 1. *)
Definition approved_world : World :=
  run (tardy_approve sample_env (press "200" 1)) sample_world.

(** Employee 100 has given a reason and the start time [start]; the bot
    waits for the end time. *)
Definition waiting_end_world (start : string) : World :=
  mk_world sample_users (<[1 := sample_request]> ∅) 1
           (mk_ctx (Some Tardy_waiting_end)
                   (<["tardy_start" := start]> (<["tardy_reason" := "traffic"]> ∅)))
           0 nil.


(** ** Registration *)






(** The verification call did not come back with status 200. *)
Definition verification_failed (o : http_outcome) : Prop :=
  match o with
  | HttpError _ => True
  | HttpOk r => resp_status r <> 200
  end.

(** ** Supervisor sync *)




(** An environment whose HR backend answers [o] to every POST. *)
Definition env_http (o : http_outcome) : Env :=
  mk_env tashkent
         (fun _ => mk_datetime (mk_date 2024 3 5) (dtime4 4 0 0 0))
         (fun _ => o)
         (fun _ => true)
         false.

(** Unregistered identity 300 has entered a passport and is asked for the
    birthdate. *)
Definition awaiting_birthdate_world : World :=
  mk_world sample_users ∅ 0
           (mk_ctx (Some Reg_birthdate) (<["passport" := "AD1234567"]> ∅)) 0 nil.




(** * Vocabulary of the further properties *)

(** Two rows that differ at most by their status. *)
Definition same_but_status (r r' : TardyRequest) : Prop :=
  employee_tg_id r' = employee_tg_id r /\
  manager_tg_id r' = manager_tg_id r /\
  reason r' = reason r /\
  start_time r' = start_time r /\
  end_time r' = end_time r /\
  submitted_at r' = submitted_at r.

(** The handlers that write to [users]: /reset, /refresh, the sync button
    and the last step of registration. *)
Definition writes_users (u : Update) : bool :=
  match u with
  | on_reset _ | on_refresh _ | on_sync _ | on_birthdate _ => true
  | _ => false
  end.

(** The handlers that write to [tardy_requests]: the last step of the
    tardy flow and the two decisions. *)
Definition writes_requests (u : Update) : bool :=
  match u with
  | on_end_time _ | on_tardy_ok _ | on_tardy_rej _ => true
  | _ => false
  end.

(** The handlers that take no [FSMContext]. *)
Definition stateless (u : Update) : bool :=
  match u with
  | on_refresh _ | on_sync _ | on_whoami _ | on_tardy_ok _ | on_tardy_rej _ => true
  | _ => false
  end.

(** ** Registration *)




(** The local time, as [upsert_user] writes it, at the next reading of
    the clock. *)
Definition local_now_str (env : Env) (w : World) : string :=
  strftime_ymd_hms (astimezone (TIMEZONE env) (utc_clock env (clock_reads w))).

Definition ask_for_passport : event :=
  Answer "Введите серию и номер паспорта (пример: AD1234567)." None.




(** ** /start, /reset, /refresh and the sync button *)

Definition already_registered (u : User) : event :=
  Answer ("✅ Вы уже зарегистрированы как: " +:+ name_or (Some u) "сотрудник")
         (Some (kb_main (is_manager u))).

Definition reset_done : event :=
  Answer ("🔁 Регистрация сброшена." +:+ nl +:+
          "Введите серию и номер паспорта (пример: AD1234567).") None.

Definition refresh_failed : event :=
  Answer "⚠️ Не удалось обновить данные из 1С. Возможно, вы не зарегистрированы или 1С вернула не 200." None.




(** ** The tardy flow *)




(** The payload of the decision call. *)
Definition decision_payload (req_id : Z) (r : TardyRequest)
    (decision emp_name mgr_name decided_at : string) : list (string * json) :=
  [("req_id", JInt req_id);
   ("employee_tg_id", JStr (employee_tg_id r));
   ("manager_tg_id", JStr (py_str (of_column (manager_tg_id r))));
   ("employee_name", JStr emp_name);
   ("manager_name", JStr mgr_name);
   ("reason", JStr (reason r));
   ("start", of_column (start_time r));
   ("end", of_column (end_time r));
   ("submitted_at", JStr (submitted_at r));
   ("decided_at", JStr decided_at);
   ("decision", JStr decision)].

(** ** Decisions *)

(** The three values of the status column. *)
Definition valid_status (r : TardyRequest) : Prop :=
  status r = "pending" \/ status r = "approved" \/ status r = "rejected".

(** The update is a press on approve or reject for request [id] by the
    approver of [r]. *)
Definition press_by_approver (id : Z) (r : TardyRequest) (u : Update) : Prop :=
  exists cb, (u = on_tardy_ok cb \/ u = on_tardy_rej cb) /\
             cb_req_id cb = id /\ is_approver_of cb r.

(** Employee 100 now has the supervisor id 0200, with a leading zero. *)
Definition zero_world : World :=
  mk_world (<["100" := set_supervisor (Some "0200") employee]> sample_users) ∅ 0
           (mk_ctx (Some Tardy_waiting_end)
                   (<["tardy_start" := "09:20"]> (<["tardy_reason" := "traffic"]> ∅)))
           0 nil.

(** ** Stamps and the listing *)

(** What is left of a string starts with a digit. *)
Definition digit_led {A} (x : A * string) : Prop :=
  match snd x with
  | String c _ => isdigit_char c = true
  | EmptyString => False
  end.

(** [(a, r)] is the first of the matches [l], and the others leave a
    digit first. *)
Definition first_of {A} (l : list (A * string)) (a : A) (r : string) : Prop :=
  exists junk, l = (a, r) :: junk /\ Forall digit_led junk.

(** [p] reads [a] at the head of [s] and leaves [r]; whatever else it
    could read there leaves a digit first. *)
Definition reads {A} (p : matcher A) (s : string) (a : A) (r : string) : Prop :=
  first_of (p s) a r.

(** Among the events [l], a message with the two decision buttons of
    request [id]. *)
Definition offers (l : list event) (id : Z) : Prop :=
  exists text, In (Answer text (Some (ikb_decision id))) l.

(** Request [id] is pending and addressed to [m]. *)
Definition pending_for (w : World) (m : string) (id : Z) : Prop :=
  exists r, tardy_requests w !! id = Some r /\
            manager_tg_id r = Some m /\ status r = "pending".

(** [m] is registered with the manager flag. *)
Definition flagged_manager (w : World) (m : string) : Prop :=
  exists u, users w !! m = Some u /\ is_manager u = true.

(** [w'] is [w] with the events [new] added to its log. *)
Definition only_logs (new : list event) (w w' : World) : Prop :=
  w' = mk_world (users w) (tardy_requests w) (tardy_seq w) (ctx w) (clock_reads w)
                (new ++ log w)%list.

(** The press of the button «Запросы на опоздание» by [who]. *)
Definition ask_list (who : string) : Message := mk_message who "Запросы на опоздание".

(** Approver 200 has a second pending request, number 2, whose stamp is
    an hour before the end of the last day [datetime] has. *)
Definition last_day_request : TardyRequest :=
  mk_tardy "100" (Some "200") "snow" (Some "09:20") (Some "09:45")
           "9999-12-31T23:00:00" "pending".

Definition last_day_world : World :=
  mk_world sample_users (<[2 := last_day_request]> (<[1 := sample_request]> ∅)) 2
           (mk_ctx None ∅) 0 nil.

(** A reply to the chat the update came from. *)
Definition is_answer (e : event) : Prop :=
  match e with
  | Answer _ _ => True
  | _ => False
  end.

(** No row is followed at once by a row with a later stamp. *)
Fixpoint newest_first (l : list (Z * TardyRequest)) : Prop :=
  match l with
  | x :: l' =>
      match l' with
      | y :: _ => text_lt (submitted_at (snd x)) (submitted_at (snd y)) = false
      | [] => True
      end /\ newest_first l'
  | [] => True
  end.

(** Approver 200 has a second pending request, number 3, sent half an
    hour after the first, with no reason and no start time. *)
Definition later_request : TardyRequest :=
  mk_tardy "100" (Some "200") "" None (Some "10:15") "2024-03-05T04:30:00.250000" "pending".

Definition two_requests_world : World :=
  mk_world sample_users (<[3 := later_request]> (<[1 := sample_request]> ∅)) 3
           (mk_ctx None ∅) 0 nil.

(** * Properties *)

(** ** The record store *)

Lemma max_rowid_ge (t : gmap Z TardyRequest) (k : Z) (r : TardyRequest) :
  t !! k = Some r -> k <= max_rowid t.
Proof.
  unfold max_rowid. revert k r.
  apply (map_fold_weak_ind (fun acc (m : gmap Z TardyRequest) => forall k r, m !! k = Some r -> k <= acc)).
  - intros k r H. rewrite lookup_empty in H. discriminate.
  - intros i x m acc Hi IH k r H.
    destruct (decide (i = k)) as [->|Hne].
    + lia.
    + rewrite lookup_insert_ne in H by assumption. specialize (IH _ _ H). lia.
Qed.

Lemma next_rowid_fresh (w : World) : tardy_requests w !! next_rowid w = None.
Proof.
  destruct (tardy_requests w !! next_rowid w) as [r|] eqn:E; [|reflexivity].
  apply max_rowid_ge in E. unfold next_rowid in E. lia.
Qed.

Lemma create_tardy_request_run env emp mgr rs st en w :
  create_tardy_request env emp mgr (Some rs) st en w =
  (Ok (next_rowid (with_tick w)),
   with_event (Sql (insert_tardy_requests (next_rowid w)))
     (with_tardy (<[next_rowid w :=
        mk_tardy emp (Some mgr) rs st en (isoformat (utc_clock env (clock_reads w))) "pending"]>)
        (next_rowid w) (with_tick w))).
Proof. reflexivity. Qed.

(** C9. Round trip: creating a request and reading it back by the id
    returned gives a row with the employee, approver, reason, start and
    end it was created with, and status "pending"; that id was free
    before. *)
Theorem create_then_get_roundtrip env w emp mgr rs st en :
  exists req_id r,
    outcome (create_tardy_request env emp mgr (Some rs) st en) w = Ok req_id /\
    tardy_requests w !! req_id = None /\
    outcome (get_tardy req_id) (run (create_tardy_request env emp mgr (Some rs) st en) w)
      = Ok (Some r) /\
    employee_tg_id r = emp /\ manager_tg_id r = Some mgr /\ reason r = rs /\
    start_time r = st /\ end_time r = en /\ status r = "pending".
Proof.
  eexists (next_rowid w), _.
  unfold outcome, run. rewrite create_tardy_request_run. simpl.
  split; [reflexivity|]. split; [apply next_rowid_fresh|].
  unfold get_tardy, gets. simpl.
  change (next_rowid (with_tick w)) with (next_rowid w).
  rewrite lookup_insert_eq. repeat split; reflexivity.
Qed.

(** ** The approval handler *)

Lemma tardy_decide_missing env st label stt emoji ack cb w :
  tardy_requests w !! cb_req_id cb = None ->
  tardy_decide env st label stt emoji ack cb w = (Ok tt, with_event already_decided w).
Proof. intros H. unfold tardy_decide. step. rewrite H. reflexivity. Qed.

Lemma tardy_decide_not_pending env st label stt emoji ack cb w r :
  tardy_requests w !! cb_req_id cb = Some r ->
  status r <> "pending" ->
  tardy_decide env st label stt emoji ack cb w = (Ok tt, with_event already_decided w).
Proof.
  intros H Hs. unfold tardy_decide. step. rewrite H.
  apply String.eqb_neq in Hs. rewrite Hs. reflexivity.
Qed.

Lemma tardy_decide_unauthorized env st label stt emoji ack cb w r :
  tardy_requests w !! cb_req_id cb = Some r ->
  status r = "pending" ->
  ~ is_approver_of cb r ->
  tardy_decide env st label stt emoji ack cb w = (Ok tt, with_event not_authorized w).
Proof.
  intros H Hs Hu. unfold tardy_decide. step. rewrite H, Hs. simpl.
  apply String.eqb_neq in Hu. rewrite Hu. reflexivity.
Qed.

Lemma tardy_decide_authorized env st label stt emoji ack cb w r :
  tardy_requests w !! cb_req_id cb = Some r ->
  status r = "pending" ->
  is_approver_of cb r ->
  let w' := run (tardy_decide env st label stt emoji ack cb) w in
  tardy_requests w' = alter (set_status st) (cb_req_id cb) (tardy_requests w) /\
  users w' = users w /\ ctx w' = ctx w /\
  writes (log w') = update_tardy_status (cb_req_id cb) st :: writes (log w).
Proof.
  intros Hr Hs Hu. unfold is_approver_of in Hu. unfold tardy_decide. step.
  rewrite Hr, Hs, Hu. simpl. rewrite String.eqb_refl. simpl.
  unfold send_decision_to_1c, post. step.
  destruct (manager_tg_id r); simpl;
  destruct (deliverable env (employee_tg_id r)); simpl;
  destruct (decision_url_set env); simpl; try (repeat split; reflexivity);
  destruct (http env ONEC_DECISION_URL); simpl; repeat split; reflexivity.
Qed.

Lemma tardy_decide_step env st label stt emoji ack cb w :
  tardy_step w (run (tardy_decide env st label stt emoji ack cb) w).
Proof.
  destruct (tardy_requests w !! cb_req_id cb) as [r|] eqn:Hr.
  - destruct (String.eqb_spec (status r) "pending") as [Hs|Hs].
    + destruct (String.eqb_spec (cb_from_user cb) (py_str (of_column (manager_tg_id r)))) as [Hu|Hu].
      * eapply tardy_decided; eauto.
        apply (tardy_decide_authorized env st label stt emoji ack cb w r); assumption.
      * apply tardy_same. unfold run.
        rewrite (tardy_decide_unauthorized env st label stt emoji ack cb w r); auto.
    + apply tardy_same. unfold run.
      rewrite (tardy_decide_not_pending env st label stt emoji ack cb w r); auto.
  - apply tardy_same. unfold run. rewrite tardy_decide_missing; auto.
Qed.

Lemma handle_step env u w : tardy_step w (run (handle env u) w).
Proof.
  destruct u; simpl;
    try apply tardy_decide_step;
    unfold start, reset_registration, refresh_user, refresh_from_1c_by_tg, sync_with_1c,
      sync_supervisor_from_1c, whoami, ask_birthdate, do_register, tardy_start, tardy_reason,
      tardy_start_time, tardy_end_time, register_in_1c, post, js_dict;
    step; cases;
    try (apply tardy_same; reflexivity);
    eapply tardy_insert; reflexivity.
Qed.

Lemma tardy_step_keeps_decided w w' : tardy_step w w' -> decided_kept w w'.
Proof.
  intros [E|r E|id r st Hr Hs E] k x Hk Hx; rewrite E.
  - assumption.
  - rewrite lookup_insert_ne; [assumption|].
    intros <-. rewrite next_rowid_fresh in Hk. discriminate.
  - rewrite lookup_alter_ne; [assumption|].
    intros <-. congruence.
Qed.

Lemma handle_all_keeps_decided us : forall w, decided_kept w (handle_all us w).
Proof.
  induction us as [|[env u] us IH]; intros w id r Hr Hs; simpl.
  - assumption.
  - apply IH; [|assumption].
    exact (tardy_step_keeps_decided _ _ (handle_step env u w) id r Hr Hs).
Qed.

(** C1. A request leaves [pending] once.  When the approver a pending
    request was created with approves or rejects it, its status becomes
    that decision; after that, and after whatever other updates the bot
    handled in between, a second approve or reject of the same request,
    by anyone, is answered with the "not found or already decided"
    notice and nothing else: no SQL write, the table of requests is
    unchanged, and the status is still the first decision. *)
Theorem status_transitions_once
    (env1 env2 : Env) (d1 d2 : decision) (cb1 cb2 : CallbackQuery)
    (between : list (Env * Update)) (w : World) (r : TardyRequest) :
  tardy_requests w !! cb_req_id cb1 = Some r ->
  status r = "pending" ->
  is_approver_of cb1 r ->
  cb_req_id cb2 = cb_req_id cb1 ->
  let w1 := run (handler_of d1 env1 cb1) w in
  let w1' := handle_all between w1 in
  let w2 := run (handler_of d2 env2 cb2) w1' in
  status_at w1 (cb_req_id cb1) = Some (status_of d1) /\
  writes (log w1) = update_tardy_status (cb_req_id cb1) (status_of d1) :: writes (log w) /\
  log w2 = already_decided :: log w1' /\
  writes (log w2) = writes (log w1') /\
  tardy_requests w2 = tardy_requests w1' /\
  status_at w2 (cb_req_id cb1) = Some (status_of d1).
Proof.
  intros Hr Hs Hu Hid w1 w1' w2.
  assert (H1 : tardy_requests w1 = alter (set_status (status_of d1)) (cb_req_id cb1) (tardy_requests w)
               /\ writes (log w1) = update_tardy_status (cb_req_id cb1) (status_of d1) :: writes (log w)).
  { subst w1. destruct d1; simpl; unfold tardy_approve, tardy_reject;
      edestruct tardy_decide_authorized as (E & _ & _ & W); eauto. }
  destruct H1 as [E1 W1].
  assert (L1 : tardy_requests w1 !! cb_req_id cb1 = Some (set_status (status_of d1) r)).
  { rewrite E1, lookup_alter_eq, Hr. reflexivity. }
  assert (L1' : tardy_requests w1' !! cb_req_id cb2 = Some (set_status (status_of d1) r)).
  { rewrite Hid. apply (handle_all_keeps_decided between w1); [assumption|].
    destruct d1; simpl; discriminate. }
  assert (E2 : handler_of d2 env2 cb2 w1' = (Ok tt, with_event already_decided w1')).
  { destruct d2; simpl; unfold tardy_approve, tardy_reject;
      eapply tardy_decide_not_pending; eauto; destruct d1; simpl; discriminate. }
  assert (W2 : w2 = with_event already_decided w1') by (subst w2; unfold run; rewrite E2; reflexivity).
  split; [unfold status_at; rewrite L1; reflexivity|].
  split; [assumption|].
  rewrite Hid in L1'.
  rewrite W2. simpl. repeat split.
  unfold status_at. simpl. rewrite L1'. reflexivity.
Qed.

Lemma status_transitions_once_witness :
  let w1 := run (tardy_reject sample_env (press "200" 1)) sample_world in
  let w2 := run (tardy_approve sample_env (press "300" 1))
                (handle_all [(sample_env, on_whoami (mk_message "100" "/whoami"))] w1) in
  status_at w1 1 = Some "rejected" /\
  status_at w2 1 = Some "rejected".
Proof.
  intros w1 w2.
  destruct (status_transitions_once sample_env sample_env Reject Approve
              (press "200" 1) (press "300" 1)
              [(sample_env, on_whoami (mk_message "100" "/whoami"))]
              sample_world sample_request)
    as (H1 & _ & _ & _ & _ & H2).
  - reflexivity.
  - reflexivity.
  - reflexivity.
  - reflexivity.
  - split; [exact H1 | exact H2].
Defined.

(** C2, as the code has it.  A decision from an identity other than the
    approver stored in the request changes neither table nor the
    conversation and writes nothing, whether the request is pending or
    decided.  The answer is "not authorized" when the request is pending;
    when it is already decided the status check comes first and the
    answer is the "not found or already decided" notice. *)
Theorem unauthorized_decision_never_mutates
    (env : Env) (d : decision) (cb : CallbackQuery) (w : World) (r : TardyRequest) :
  tardy_requests w !! cb_req_id cb = Some r ->
  ~ is_approver_of cb r ->
  let w' := run (handler_of d env cb) w in
  tardy_requests w' = tardy_requests w /\
  users w' = users w /\
  ctx w' = ctx w /\
  writes (log w') = writes (log w) /\
  log w' = (if (status r =? "pending")%string then not_authorized else already_decided) :: log w.
Proof.
  intros Hr Hu w'.
  assert (E : handler_of d env cb w =
              (Ok tt, with_event (if (status r =? "pending")%string
                                  then not_authorized else already_decided) w)).
  { destruct (String.eqb_spec (status r) "pending") as [Hs|Hs];
      destruct d; simpl; unfold tardy_approve, tardy_reject;
      first [ eapply tardy_decide_unauthorized; eassumption
            | eapply tardy_decide_not_pending; eassumption ]. }
  subst w'. unfold run. rewrite E. simpl.
  destruct (status r =? "pending")%string; repeat split.
Qed.

Lemma unauthorized_decision_never_mutates_witness :
  let w' := run (tardy_approve sample_env (press "300" 1)) sample_world in
  tardy_requests w' = tardy_requests sample_world /\
  log w' = not_authorized :: log sample_world.
Proof.
  intros w'.
  destruct (unauthorized_decision_never_mutates sample_env Approve (press "300" 1)
              sample_world sample_request)
    as (H1 & _ & _ & _ & H2).
  - reflexivity.
  - unfold is_approver_of. simpl. discriminate.
  - split; [exact H1 | exact H2].
Defined.

(** C2 as stated fails on a decided request: identity 300 is not the
    approver of request 1, which approver 200 has approved, and the
    answer to its press is the "not found or already decided" notice,
    not "not authorized". *)
Lemma unauthorized_on_decided_counterexample :
  tardy_requests approved_world !! 1 = Some (set_status "approved" sample_request) /\
  ~ is_approver_of (press "300" 1) (set_status "approved" sample_request) /\
  log (run (tardy_approve sample_env (press "300" 1)) approved_world)
    = already_decided :: log approved_world /\
  log (run (tardy_approve sample_env (press "300" 1)) approved_world)
    <> not_authorized :: log approved_world.
Proof.
  split; [reflexivity|]. split; [unfold is_approver_of; simpl; discriminate|].
  split; [reflexivity|]. vm_compute. discriminate.
Qed.

(** ** The tardy flow *)

Lemma time_lt_false_le (a b : time) : time_lt a b = false -> time_le b a = true.
Proof.
  unfold time_lt, time_le, time_cmp.
  rewrite (Z.compare_antisym (hour a) (hour b)), (Z.compare_antisym (minute a) (minute b)),
    (Z.compare_antisym (second a) (second b)),
    (Z.compare_antisym (microsecond a) (microsecond b)).
  destruct (hour a ?= hour b); simpl; try easy.
  destruct (minute a ?= minute b); simpl; try easy.
  destruct (second a ?= second b); simpl; try easy.
  destruct (microsecond a ?= microsecond b); simpl; easy.
Qed.

Lemma after_cut_off (t : time) : time_le (dtime 8 11) t = true -> time_le t CUT_OFF = false.
Proof.
  unfold time_le, time_cmp, CUT_OFF, dtime. cbn [hour minute second microsecond].
  destruct (Z.compare_spec 8 (hour t)) as [E|E|E];
    destruct (Z.compare_spec (hour t) 8) as [E'|E'|E']; try lia; try reflexivity;
    try (intros; discriminate).
  destruct (Z.compare_spec 11 (minute t)) as [F|F|F];
    destruct (Z.compare_spec (minute t) 10) as [F'|F'|F']; try lia; try reflexivity;
    intros; discriminate.
Qed.

(** C4. For a registered user who presses "Я опоздал": when the local
    time of day is at or before 08:10 the answer is "no notification
    required" and nothing else happens (the conversation context and both
    tables are unchanged, nothing is written); when it is 08:11 or later
    the conversation enters [Tardy.waiting_reason]. *)
Theorem tardy_start_cut_off (env : Env) (message : Message) (w : World) (u : User) :
  users w !! from_user message = Some u ->
  let w' := run (tardy_start env message) w in
  (time_le (local_time env w) (dtime 8 10) = true ->
     log w' = no_notification_required :: log w /\
     ctx w' = ctx w /\
     tardy_requests w' = tardy_requests w /\
     users w' = users w /\
     writes (log w') = writes (log w)) /\
  (time_le (dtime 8 11) (local_time env w) = true ->
     state (ctx w') = Some Tardy_waiting_reason /\
     tardy_requests w' = tardy_requests w /\
     writes (log w') = writes (log w)).
Proof.
  intros Hu w'. subst w'. unfold tardy_start, local_time. step. rewrite Hu. simpl.
  split; intros Ht.
  - change (dtime 8 10) with CUT_OFF in Ht. rewrite Ht. simpl. repeat split.
  - apply after_cut_off in Ht. rewrite Ht. simpl. repeat split.
Qed.

Lemma tardy_start_cut_off_witness :
  (let w' := run (tardy_start (env_at 3 10 0) (mk_message "100" "Я опоздал")) sample_world in
   log w' = no_notification_required :: log sample_world /\ ctx w' = ctx sample_world) /\
  (let w' := run (tardy_start (env_at 3 11 0) (mk_message "100" "Я опоздал")) sample_world in
   state (ctx w') = Some Tardy_waiting_reason).
Proof.
  split.
  - destruct (tardy_start_cut_off (env_at 3 10 0) (mk_message "100" "Я опоздал")
                sample_world employee) as [H _].
    + reflexivity.
    + destruct H as (H1 & H2 & _); [reflexivity|]. split; [exact H1 | exact H2].
  - destruct (tardy_start_cut_off (env_at 3 11 0) (mk_message "100" "Я опоздал")
                sample_world employee) as [_ H].
    + reflexivity.
    + destruct H as (H1 & _); [reflexivity|]. exact H1.
Defined.

Lemma parse_time_hhmm_truthy (s : string) (t : time) :
  parse_time_hhmm s = Some t -> truthy s = true.
Proof. destruct s; [discriminate | reflexivity]. Qed.

(** The handler up to the comparison of the two times. *)
Lemma tardy_end_time_too_early env message w s ts te :
  data (ctx w) !! "tardy_start" = Some s ->
  parse_time_hhmm s = Some ts ->
  parse_time_hhmm (strip (text message)) = Some te ->
  time_lt te ts = true ->
  tardy_end_time env message w = (Ok tt, with_event ask_end_again w).
Proof.
  intros Hs Hts Hte Hlt. unfold tardy_end_time. rewrite Hte. step.
  rewrite Hs, (parse_time_hhmm_truthy _ _ Hts), Hts, Hlt. reflexivity.
Qed.

(** C5. At the last step of the tardy flow, with a valid start time in
    the conversation and a valid end time entered: a request is created
    only if the end is not before the start; when the end is before the
    start the answer asks for the end time again, the conversation
    context (state, reason and start time) is unchanged, and no request
    is created. *)
Theorem tardy_end_time_order
    (env : Env) (message : Message) (w : World) (s : string) (ts te : time) :
  state (ctx w) = Some Tardy_waiting_end ->
  data (ctx w) !! "tardy_start" = Some s ->
  parse_time_hhmm s = Some ts ->
  parse_time_hhmm (strip (text message)) = Some te ->
  let w' := run (tardy_end_time env message) w in
  (tardy_requests w' <> tardy_requests w -> time_le ts te = true) /\
  (time_lt te ts = true ->
     log w' = ask_end_again :: log w /\
     ctx w' = ctx w /\
     tardy_requests w' = tardy_requests w /\
     writes (log w') = writes (log w)).
Proof.
  intros _ Hs Hts Hte w'. subst w'. split.
  - intros Hne. apply time_lt_false_le.
    destruct (time_lt te ts) eqn:Hlt; [|reflexivity].
    exfalso. apply Hne. unfold run.
    rewrite (tardy_end_time_too_early env message w s ts te Hs Hts Hte Hlt). reflexivity.
  - intros Hlt. unfold run.
    rewrite (tardy_end_time_too_early env message w s ts te Hs Hts Hte Hlt).
    simpl. repeat split.
Qed.

Lemma tardy_end_time_order_witness :
  (let w := waiting_end_world "09:45" in
   let w' := run (tardy_end_time sample_env (mk_message "100" "09:20")) w in
   log w' = ask_end_again :: log w /\ ctx w' = ctx w /\ tardy_requests w' = tardy_requests w) /\
  (let w := waiting_end_world "09:20" in
   let w' := run (tardy_end_time sample_env (mk_message "100" "09:45")) w in
   tardy_requests w' <> tardy_requests w /\ time_le (dtime 9 20) (dtime 9 45) = true).
Proof.
  split.
  - destruct (tardy_end_time_order sample_env (mk_message "100" "09:20")
                (waiting_end_world "09:45") "09:45" (dtime 9 45) (dtime 9 20)) as [_ H];
      try reflexivity.
    destruct H as (H1 & H2 & H3 & _); [reflexivity|].
    split; [exact H1|]. split; [exact H2 | exact H3].
  - destruct (tardy_end_time_order sample_env (mk_message "100" "09:45")
                (waiting_end_world "09:20") "09:20" (dtime 9 20) (dtime 9 45)) as [H _];
      try reflexivity.
    assert (Hne : tardy_requests (run (tardy_end_time sample_env (mk_message "100" "09:45"))
                                      (waiting_end_world "09:20"))
                  <> tardy_requests (waiting_end_world "09:20")).
    { intros E. apply (f_equal (fun t => t !! 2)) in E. vm_compute in E. discriminate. }
    split; [exact Hne | exact (H Hne)].
Defined.

Lemma supervisor_or_empty (o : option string) :
  py_str (py_or (of_column o) (JStr "")) = default "" o.
Proof. destruct o as [[|c s]|]; reflexivity. Qed.




(** ** Registration *)

Lemma isspace_upper_char (c : ascii) : isspace (upper_char c) = isspace c.
Proof. destruct c as [[] [] [] [] [] [] [] []]; reflexivity. Qed.

Lemma sub_spaces_upper (s : string) : sub_spaces (upper s) = upper (sub_spaces s).
Proof.
  induction s as [|c s IH]; [reflexivity|].
  cbn [upper sub_spaces]. rewrite isspace_upper_char, IH.
  destruct (isspace c); reflexivity.
Qed.





Lemma sub_spaces_no_space (s : string) :
  all_chars (fun c => negb (isspace c)) (sub_spaces s) = true.
Proof.
  induction s as [|c s IH]; [reflexivity|].
  cbn [sub_spaces]. destruct (isspace c) eqn:E; [assumption|].
  cbn [all_chars]. rewrite E, IH. reflexivity.
Qed.






(** C8. In the state [Reg.birthdate], when the verification call fails in
    transport or comes back with a status other than 200, no row of
    [users] is written and the conversation context (the state and the
    passport entered) is as before. *)
Theorem failed_verification_keeps_state (env : Env) (message : Message) (w : World) :
  state (ctx w) = Some Reg_birthdate ->
  verification_failed (http env ONEC_URL) ->
  let w' := run (do_register env message) w in
  users w' = users w /\
  ctx w' = ctx w /\
  tardy_requests w' = tardy_requests w /\
  writes (log w') = writes (log w).
Proof.
  intros _ Hf w'. subst w'.
  unfold do_register, register_in_1c, post, js_dict. step.
  destruct (http env ONEC_URL) as [detail|r]; simpl in Hf.
  - cases; repeat split; reflexivity.
  - apply Z.eqb_neq in Hf.
    destruct (valid_birthdate (strip (text message))); simpl; [|repeat split; reflexivity].
    destruct (data (ctx w) !! "passport"); simpl; [|repeat split; reflexivity].
    rewrite Hf. cases; repeat split; reflexivity.
Qed.

Lemma failed_verification_keeps_state_witness :
  (let w' := run (do_register (env_http (HttpError "Cannot connect to host"))
                    (mk_message "300" "30.09.2005")) awaiting_birthdate_world in
   users w' = sample_users /\ ctx w' = ctx awaiting_birthdate_world) /\
  (let w' := run (do_register (env_http (HttpOk (mk_response 503 "Service Unavailable" None)))
                    (mk_message "300" "30.09.2005")) awaiting_birthdate_world in
   users w' = sample_users /\ ctx w' = ctx awaiting_birthdate_world).
Proof.
  split.
  - destruct (failed_verification_keeps_state (env_http (HttpError "Cannot connect to host"))
                (mk_message "300" "30.09.2005") awaiting_birthdate_world)
      as (H1 & H2 & _); [reflexivity | exact I |].
    split; [exact H1 | exact H2].
  - destruct (failed_verification_keeps_state
                (env_http (HttpOk (mk_response 503 "Service Unavailable" None)))
                (mk_message "300" "30.09.2005") awaiting_birthdate_world)
      as (H1 & H2 & _); [reflexivity | simpl; lia |].
    split; [exact H1 | exact H2].
Defined.

(** ** Supervisor sync *)

Lemma append_cons (x : ascii) (a b : string) : String x a +:+ b = String x (a +:+ b).
Proof. reflexivity. Qed.

Lemma append_assoc (a b c : string) : (a +:+ b) +:+ c = a +:+ (b +:+ c).
Proof.
  induction a as [|x a IH]; [reflexivity|].
  rewrite !append_cons, IH. reflexivity.
Qed.














(** ** The time of submission *)

Lemma create_tardy_request_submitted_at env emp mgr rs st en w :
  submitted_at <$>
    tardy_requests (run (create_tardy_request env emp mgr (Some rs) st en) w) !! next_rowid w
  = Some (isoformat (utc_clock env (clock_reads w))).
Proof.
  unfold run. rewrite create_tardy_request_run. simpl.
  rewrite lookup_insert_eq. reflexivity.
Qed.

(** C3 (the code departs from it).  In a deployment on Tashkent time, at
    04:00:00 UTC on 2024-03-05, the tardy flow of employee 100 ends with
    the end time 09:45 and creates request 2.  Its [submitted_at] is the
    UTC time in ISO format, "2024-03-05T04:00:00"; the local time, which
    the docstring of [submitted_now_str] promises, is
    "2024-03-05 09:00:00". *)
Theorem submitted_at_is_utc_not_local :
  let w := waiting_end_world "09:20" in
  let w' := run (tardy_end_time sample_env (mk_message "100" "09:45")) w in
  submitted_at <$> tardy_requests w' !! 2 = Some "2024-03-05T04:00:00" /\
  strftime_ymd_hms (astimezone (TIMEZONE sample_env) (utc_clock sample_env (clock_reads w)))
    = "2024-03-05 09:00:00".
Proof. split; reflexivity. Qed.

(** ** Examples *)

Example valid_birthdate_examples :
  valid_birthdate "30.09.2005" = true /\
  valid_birthdate "31.02.2005" = false /\
  valid_birthdate "2005-09-30" = false /\
  valid_birthdate "29.02.2004" = true /\
  valid_birthdate "29.02.1900" = false.
Proof. repeat split; reflexivity. Qed.

Example parse_time_hhmm_examples :
  parse_time_hhmm " 09:20 " = Some (dtime 9 20) /\
  parse_time_hhmm "23:59" = Some (dtime 23 59) /\
  parse_time_hhmm "24:00" = None /\
  parse_time_hhmm "09:60" = None /\
  parse_time_hhmm "9:20" = None.
Proof. repeat split; reflexivity. Qed.

Example search_digits5_examples :
  search_digits5 "tg://user?id=123456789" = Some "123456789" /\
  search_digits5 "1234a56789" = Some "56789" /\
  search_digits5 "1234 5678" = None.
Proof. repeat split; reflexivity. Qed.

(** The cut-off is compared with the full time of day: thirty seconds
    past 08:10 is after it. *)
Example half_a_minute_past_cut_off :
  let w' := run (tardy_start (env_at 3 10 30) (mk_message "100" "Я опоздал")) sample_world in
  local_time (env_at 3 10 30) sample_world = dtime4 8 10 30 0 /\
  state (ctx w') = Some Tardy_waiting_reason.
Proof. split; reflexivity. Qed.

(** The request of the specification, ("traffic", "09:20", "09:45"),
    created and read back. *)
Example traffic_roundtrip :
  let m := create_tardy_request sample_env "100" "200" (Some "traffic")
             (Some "09:20") (Some "09:45") in
  outcome m sample_world = Ok 2 /\
  outcome (get_tardy 2) (run m sample_world)
    = Ok (Some (mk_tardy "100" (Some "200") "traffic" (Some "09:20") (Some "09:45")
                         "2024-03-05T04:00:00" "pending")).
Proof. split; reflexivity. Qed.

(** A whole life of a request: employee 100 reports at 09:00 local time,
    gives a reason, a start and an end; approver 200 approves request 2;
    a later rejection changes nothing. *)
Example lifecycle :
  let w := handle_all
             [(sample_env, on_tardy (mk_message "100" "Я опоздал"));
              (sample_env, on_reason (mk_message "100" " traffic "));
              (sample_env, on_start_time (mk_message "100" "09:20"));
              (sample_env, on_end_time (mk_message "100" "09:45"));
              (sample_env, on_tardy_ok (press "200" 2));
              (sample_env, on_tardy_rej (press "200" 2))]
             sample_world in
  status_at w 2 = Some "approved" /\
  status_at w 1 = Some "pending" /\
  ctx w = mk_ctx None ∅ /\
  writes (log w) = [update_tardy_status 2 "approved"; insert_tardy_requests 2] /\
  head (log w) = Some already_decided.
Proof. repeat split; reflexivity. Qed.

(** * Further properties of the code *)

(** ** Text helpers *)

Lemma lstrip_idem (s : string) : lstrip (lstrip s) = lstrip s.
Proof.
  induction s as [|c s IH]; [reflexivity|].
  cbn [lstrip]. destruct (isspace c) eqn:E; [exact IH|].
  cbn [lstrip]. rewrite E. reflexivity.
Qed.

Lemma rstrip_idem (s : string) : rstrip (rstrip s) = rstrip s.
Proof.
  induction s as [|c s IH]; [reflexivity|].
  cbn [rstrip]. destruct (rstrip s) as [|c' r'] eqn:Er.
  - destruct (isspace c) eqn:E; [reflexivity|].
    cbn [rstrip]. rewrite E. reflexivity.
  - change (rstrip (String c (String c' r')))
      with (match rstrip (String c' r') with
            | EmptyString => if isspace c then EmptyString else String c EmptyString
            | r'' => String c r''
            end).
    rewrite IH. reflexivity.
Qed.

(** The first character of a right-stripped string is that of the string,
    when it is not whitespace. *)
Lemma rstrip_head (c : ascii) (s : string) :
  isspace c = false -> exists r, rstrip (String c s) = String c r.
Proof.
  intros E. cbn [rstrip]. destruct (rstrip s); [rewrite E|]; eexists; reflexivity.
Qed.

Lemma lstrip_head (s : string) :
  lstrip s = EmptyString \/ exists c r, lstrip s = String c r /\ isspace c = false.
Proof.
  induction s as [|c s IH]; [left; reflexivity|].
  cbn [lstrip]. destruct (isspace c) eqn:E; [exact IH|].
  right. exists c, s. split; [reflexivity | exact E].
Qed.

Lemma strip_idem (s : string) : strip (strip s) = strip s.
Proof.
  unfold strip. destruct (lstrip_head s) as [E|(c & r & E & Hc)]; rewrite E.
  - reflexivity.
  - destruct (rstrip_head c r Hc) as [r' Er]. rewrite Er.
    cbn [lstrip]. rewrite Hc, <- Er. apply rstrip_idem.
Qed.

Lemma upper_char_idem (c : ascii) : upper_char (upper_char c) = upper_char c.
Proof. destruct c as [[] [] [] [] [] [] [] []]; reflexivity. Qed.

Lemma upper_idem (s : string) : upper (upper s) = upper s.
Proof.
  induction s as [|c s IH]; [reflexivity|].
  cbn [upper]. rewrite upper_char_idem, IH. reflexivity.
Qed.

Lemma no_space_sub_spaces (s : string) :
  all_chars (fun c => negb (isspace c)) s = true -> sub_spaces s = s.
Proof.
  induction s as [|c s IH]; [reflexivity|].
  cbn [all_chars sub_spaces]. intros H. apply andb_true_iff in H as [Hc Hs].
  apply negb_true_iff in Hc. rewrite Hc, (IH Hs). reflexivity.
Qed.

Lemma no_space_lstrip (s : string) :
  all_chars (fun c => negb (isspace c)) s = true -> lstrip s = s.
Proof.
  destruct s as [|c s]; [reflexivity|].
  cbn [all_chars lstrip]. intros H. apply andb_true_iff in H as [Hc _].
  apply negb_true_iff in Hc. rewrite Hc. reflexivity.
Qed.

Lemma no_space_rstrip (s : string) :
  all_chars (fun c => negb (isspace c)) s = true -> rstrip s = s.
Proof.
  induction s as [|c s IH]; [reflexivity|].
  cbn [all_chars rstrip]. intros H. apply andb_true_iff in H as [Hc Hs].
  apply negb_true_iff in Hc. rewrite (IH Hs), Hc. destruct s; reflexivity.
Qed.

(** A lowercase ASCII letter. *)
Lemma upper_char_not_lower (c : ascii) :
  (97 <=? code (upper_char c)) && (code (upper_char c) <=? 122) = false.
Proof. destruct c as [[] [] [] [] [] [] [] []]; reflexivity. Qed.

(** X (normalize_passport).  Normalizing a passport twice is normalizing
    it once, and a normalized passport holds no whitespace and no
    lowercase ASCII letter. *)
Theorem normalize_passport_idempotent (text : string) :
  normalize_passport (normalize_passport text) = normalize_passport text /\
  all_chars (fun c => negb (isspace c)) (normalize_passport text) = true /\
  all_chars (fun c => negb ((97 <=? code c) && (code c <=? 122))) (normalize_passport text) = true.
Proof.
  assert (Hs : all_chars (fun c => negb (isspace c)) (normalize_passport text) = true)
    by apply sub_spaces_no_space.
  split; [|split; [exact Hs|]].
  - unfold normalize_passport at 1. unfold strip.
    rewrite (no_space_lstrip _ Hs), (no_space_rstrip _ Hs).
    rewrite sub_spaces_upper, (no_space_sub_spaces _ Hs).
    unfold normalize_passport. rewrite sub_spaces_upper. apply upper_idem.
  - unfold normalize_passport. rewrite sub_spaces_upper.
    induction (sub_spaces (strip text)) as [|c s IH]; [reflexivity|].
    cbn [upper all_chars]. rewrite upper_char_not_lower, IH. reflexivity.
Qed.

(** ** Digits *)

Lemma append_empty_l (s : string) : "" +:+ s = s.
Proof. reflexivity. Qed.

Lemma code_range (c : ascii) : 0 <= code c < 256.
Proof.
  unfold code. pose proof (N_ascii_bounded c) as H. lia.
Qed.

Lemma code_digit (n : Z) : code (digit n) = 48 + n mod 10.
Proof.
  unfold code, digit. pose proof (Z.mod_pos_bound n 10 ltac:(lia)) as H.
  rewrite N_ascii_embedding by lia. lia.
Qed.

Lemma digit_val_digit (n : Z) : digit_val (digit n) = n mod 10.
Proof. unfold digit_val. rewrite code_digit. lia. Qed.

Lemma isdigit_digit (n : Z) : isdigit_char (digit n) = true.
Proof.
  unfold isdigit_char. rewrite code_digit.
  pose proof (Z.mod_pos_bound n 10 ltac:(lia)) as H.
  apply andb_true_iff. split; apply Z.leb_le; lia.
Qed.



Lemma isdigit_not_space (c : ascii) : isdigit_char c = true -> isspace c = false.
Proof.
  unfold isdigit_char, isspace. intros H.
  apply andb_true_iff in H as [H1 H2]. apply Z.leb_le in H1, H2.
  apply orb_false_iff. split; apply andb_false_iff; right; apply Z.leb_gt; lia.
Qed.


(** What [%02d] prints reads back as the number. *)
Lemma int2_pad2 (n : Z) :
  0 <= n <= 99 -> int2 (digit (n / 10)) (digit n) = n.
Proof.
  intros H. unfold int2. rewrite !digit_val_digit.
  rewrite (Z.mod_small (n / 10) 10)
    by (split; [apply Z.div_pos; lia | apply Z.div_lt_upper_bound; lia]).
  pose proof (Z.div_mod n 10 ltac:(lia)). lia.
Qed.


(** ** Times of day *)




(** X (parse_time_hhmm, writing).  Every hour 0..23 and minute 0..59,
    printed as HH:MM, is accepted and read back as that time. *)
Theorem parse_time_hhmm_complete (h m : Z) :
  0 <= h <= 23 -> 0 <= m <= 59 ->
  parse_time_hhmm (pad2 h +:+ ":" +:+ pad2 m) = Some (dtime h m).
Proof.
  intros Hh Hm.
  assert (Sh : isspace (digit (h / 10)) = false) by (apply isdigit_not_space, isdigit_digit).
  assert (Sm : isspace (digit m) = false) by (apply isdigit_not_space, isdigit_digit).
  assert (Sm1 : isspace (digit (m / 10)) = false) by (apply isdigit_not_space, isdigit_digit).
  assert (Sh2 : isspace (digit h) = false) by (apply isdigit_not_space, isdigit_digit).
  assert (E : strip (pad2 h +:+ ":" +:+ pad2 m) = pad2 h +:+ ":" +:+ pad2 m).
  { assert (N : all_chars (fun c => negb (isspace c)) (pad2 h +:+ ":" +:+ pad2 m) = true).
    { unfold pad2. rewrite !append_cons, !append_empty_l.
      cbn [all_chars]. rewrite Sh, Sh2, Sm1, Sm. reflexivity. }
    unfold strip. rewrite (no_space_lstrip _ N). apply no_space_rstrip, N. }
  unfold parse_time_hhmm. rewrite E. unfold pad2. rewrite !append_cons, !append_empty_l.
  unfold re_match, TIME_RE. cbn [eat_seq eat in_class].
  rewrite !isdigit_digit. cbn [Ascii.eqb Bool.eqb andb]. 
  cbn [at_dollar String.eqb orb negb strptime_hm all_chars].
  rewrite !isdigit_digit, (int2_pad2 h), (int2_pad2 m) by lia.
  cbn [andb].
  destruct (Z.leb_spec h 23); [|lia]. destruct (Z.leb_spec m 59); [|lia].
  reflexivity.
Qed.

Lemma parse_time_hhmm_complete_witness :
  parse_time_hhmm (pad2 23 +:+ ":" +:+ pad2 59) = Some (dtime 23 59).
Proof. apply (parse_time_hhmm_complete 23 59); lia. Defined.

(** ** Birthdates *)

Lemma days_in_month_bound (y m : Z) : 28 <= days_in_month y m <= 31.
Proof.
  unfold days_in_month.
  destruct (m =? 2); [destruct (is_leap y); lia|].
  destruct ((m =? 4) || (m =? 6) || (m =? 9) || (m =? 11)); lia.
Qed.


Lemma int4_pad4 (y : Z) :
  0 <= y <= 9999 ->
  int4 (digit (y / 100 / 10)) (digit (y / 100)) (digit (y / 10)) (digit y) = y.
Proof.
  intros H. unfold int4. rewrite !digit_val_digit.
  Z.div_mod_to_equations. lia.
Qed.




(** ** What the handlers touch *)

Lemma tardy_decide_frame env st label stt emoji ack cb w :
  users (run (tardy_decide env st label stt emoji ack cb) w) = users w /\
  ctx (run (tardy_decide env st label stt emoji ack cb) w) = ctx w.
Proof.
  destruct (tardy_requests w !! cb_req_id cb) as [r|] eqn:Hr.
  - destruct (String.eqb_spec (status r) "pending") as [Hs|Hs].
    + destruct (String.eqb_spec (cb_from_user cb) (py_str (of_column (manager_tg_id r)))) as [Hu|Hu].
      * destruct (tardy_decide_authorized env st label stt emoji ack cb w r Hr Hs Hu)
          as (_ & U & C & _). split; assumption.
      * unfold run. rewrite (tardy_decide_unauthorized env st label stt emoji ack cb w r Hr Hs Hu).
        split; reflexivity.
    + unfold run. rewrite (tardy_decide_not_pending env st label stt emoji ack cb w r Hr Hs).
      split; reflexivity.
  - unfold run. rewrite (tardy_decide_missing env st label stt emoji ack cb w Hr).
    split; reflexivity.
Qed.

Lemma handle_frame (env : Env) (u : Update) (w : World) :
  (if writes_users u then True else users (run (handle env u) w) = users w) /\
  (if writes_requests u then True
   else tardy_requests (run (handle env u) w) = tardy_requests w) /\
  (if stateless u then ctx (run (handle env u) w) = ctx w else True).
Proof.
  destruct u; cbn [writes_users writes_requests stateless handle];
    try (unfold tardy_approve, tardy_reject;
         split; [apply tardy_decide_frame | split; [exact I | apply tardy_decide_frame]]);
    unfold start, reset_registration, refresh_user, refresh_from_1c_by_tg, sync_with_1c,
      sync_supervisor_from_1c, whoami, ask_birthdate, do_register, tardy_start, tardy_reason,
      tardy_start_time, tardy_end_time, register_in_1c, post, js_dict;
    step; cases; repeat split.
Qed.

(** X (the handlers' footprints).  Only /reset, /refresh, the sync button
    and the last step of registration can change [users]; only the last
    step of the tardy flow and the two decisions can change
    [tardy_requests]; and the handlers that take no FSM context leave the
    conversation as it is. *)
Theorem handler_footprint (env : Env) (u : Update) (w : World) :
  (if writes_users u then True else users (run (handle env u) w) = users w) /\
  (if writes_requests u then True
   else tardy_requests (run (handle env u) w) = tardy_requests w) /\
  (if stateless u then ctx (run (handle env u) w) = ctx w else True).
Proof. exact (handle_frame env u w). Qed.

(** ** Rows are kept *)

Lemma tardy_step_row w w' id r :
  tardy_step w w' -> tardy_requests w !! id = Some r ->
  exists r', tardy_requests w' !! id = Some r' /\ same_but_status r r'.
Proof.
  intros [E|x E|k x st Hk Hs E] Hr; rewrite E.
  - exists r. split; [assumption | repeat split].
  - exists r. split; [|repeat split].
    rewrite lookup_insert_ne; [assumption|].
    intros <-. rewrite next_rowid_fresh in Hr. discriminate.
  - destruct (decide (k = id)) as [->|Hne].
    + exists (set_status st r). rewrite lookup_alter_eq, Hr. split; [reflexivity | repeat split].
    + exists r. rewrite lookup_alter_ne by assumption. split; [assumption | repeat split].
Qed.

Lemma same_but_status_trans r1 r2 r3 :
  same_but_status r1 r2 -> same_but_status r2 r3 -> same_but_status r1 r3.
Proof.
  unfold same_but_status. intros (A1 & A2 & A3 & A4 & A5 & A6) (B1 & B2 & B3 & B4 & B5 & B6).
  repeat split; congruence.
Qed.

(** X (requests are kept).  Whatever updates the bot handles, a request
    is never deleted, and its employee, approver, reason, period and
    submission time stay as they were created: only the status can
    change.  In particular a later change of the employee's supervisor
    does not move a request to another approver. *)
Theorem requests_are_kept (us : list (Env * Update)) (w : World) (id : Z) (r : TardyRequest) :
  tardy_requests w !! id = Some r ->
  exists r', tardy_requests (handle_all us w) !! id = Some r' /\ same_but_status r r'.
Proof.
  revert w r. induction us as [|[env u] us IH]; intros w r Hr; cbn [handle_all].
  - exists r. split; [assumption | repeat split].
  - destruct (tardy_step_row _ _ id r (handle_step env u w) Hr) as (r1 & H1 & S1).
    destruct (IH _ _ H1) as (r2 & H2 & S2).
    exists r2. split; [assumption | eapply same_but_status_trans; eassumption].
Qed.

(** X (request ids grow).  A request that appears while the bot handles
    updates gets an id larger than every id the table held before. *)
Theorem new_ids_are_larger (us : list (Env * Update)) (w : World) (id : Z) (r : TardyRequest) :
  tardy_requests w !! id = None ->
  tardy_requests (handle_all us w) !! id = Some r ->
  forall k r0, tardy_requests w !! k = Some r0 -> k < id.
Proof.
  revert w. induction us as [|[env u] us IH]; intros w Hn Hr k r0 Hk; cbn [handle_all] in Hr.
  - congruence.
  - destruct (tardy_step_row _ _ k r0 (handle_step env u w) Hk) as (r1 & H1 & _).
    destruct (tardy_requests (run (handle env u) w) !! id) as [x|] eqn:Hx.
    + destruct (handle_step env u w) as [E|y E|j y st Hj Hs E].
      * congruence.
      * rewrite E in Hx. destruct (decide (next_rowid w = id)) as [<-|Hne].
        -- pose proof (max_rowid_ge _ _ _ Hk). unfold next_rowid. lia.
        -- rewrite lookup_insert_ne in Hx by assumption. congruence.
      * rewrite E in Hx. destruct (decide (j = id)) as [->|Hne].
        -- congruence.
        -- rewrite lookup_alter_ne in Hx by assumption. congruence.
    + exact (IH _ Hx Hr k r1 H1).
Qed.


(** ** Registration *)








Lemma requests_are_kept_witness :
  let us := [(env_http (HttpOk (mk_response 200 "{supervisor: 7777777}"
                                  (Some (JsDict (<["supervisor" := JInt 7777777]> ∅))))),
              on_sync (mk_message "100" "🔄 Синхронизация с 1С"));
             (sample_env, on_tardy_ok (press "200" 1))] in
  supervisor_tg_id <$> users (handle_all us sample_world) !! "100" = Some (Some "7777777") /\
  exists r', tardy_requests (handle_all us sample_world) !! 1 = Some r' /\
             same_but_status sample_request r'.
Proof.
  intros us. split; [reflexivity|].
  apply (requests_are_kept us sample_world 1 sample_request). reflexivity.
Defined.

Lemma new_ids_are_larger_witness : 1 < 2.
Proof.
  apply (new_ids_are_larger
           [(sample_env, on_end_time (mk_message "100" "09:45"))]
           (waiting_end_world "09:20") 2
           (mk_tardy "100" (Some "200") "traffic" (Some "09:20") (Some "09:45")
                     "2024-03-05T04:00:00" "pending")
           eq_refl eq_refl 1 sample_request eq_refl).
Defined.

(** ** /start and /reset *)

(** X (/start).  /start writes nothing and drops whatever conversation
    was in progress: a registered identity is greeted by name and left
    without conversation state, an unregistered one is asked for the
    passport in [Reg.passport] with no data. *)
Theorem start_restarts_conversation (message : Message) (w : World) :
  let w' := run (start message) w in
  users w' = users w /\
  tardy_requests w' = tardy_requests w /\
  writes (log w') = writes (log w) /\
  match users w !! from_user message with
  | Some u => ctx w' = mk_ctx None ∅ /\ log w' = already_registered u :: log w
  | None => ctx w' = mk_ctx (Some Reg_passport) ∅ /\ log w' = ask_for_passport :: log w
  end.
Proof.
  unfold start. step. destruct (users w !! from_user message); simpl; repeat split.
Qed.

(** X (/reset).  /reset deletes the row of the identity, whatever the
    conversation was doing, and restarts at [Reg.passport]; the rows of
    other identities and every tardy request, the identity's own
    included, stay.  A /start that follows asks for the passport. *)
Theorem reset_forgets_user (message : Message) (w : World) :
  let w1 := run (reset_registration message) w in
  let w2 := run (start message) w1 in
  users w1 !! from_user message = None /\
  (forall other, other <> from_user message -> users w1 !! other = users w !! other) /\
  tardy_requests w1 = tardy_requests w /\
  ctx w1 = mk_ctx (Some Reg_passport) ∅ /\
  log w1 = reset_done :: Sql (delete_users (from_user message)) :: log w /\
  ctx w2 = mk_ctx (Some Reg_passport) ∅ /\
  users w2 = users w1 /\
  log w2 = ask_for_passport :: log w1.
Proof.
  intros w1 w2.
  assert (H1 : users w1 !! from_user message = None).
  { subst w1. unfold reset_registration. step. apply lookup_delete_eq. }
  split; [exact H1|].
  split; [intros other Hne; subst w1; unfold reset_registration; step;
          apply lookup_delete_ne; congruence|].
  assert (Hs : forall w0, users w0 !! from_user message = None ->
               ctx (run (start message) w0) = mk_ctx (Some Reg_passport) ∅ /\
               users (run (start message) w0) = users w0 /\
               log (run (start message) w0) = ask_for_passport :: log w0).
  { intros w0 H0. unfold start. step. rewrite H0. simpl. repeat split. }
  destruct (Hs w1 H1) as (C & U & L). fold w2 in C, U, L. clear Hs.
  subst w1. unfold reset_registration in *. step. repeat split; assumption.
Qed.

(** ** /refresh *)

(** X (/refresh fails).  For an unregistered identity /refresh makes no
    call; for a registered one whose verification call comes back with a
    status other than 200 it makes the call; either way no row changes
    and the answer is the "could not refresh" warning. *)
Theorem refresh_failure_keeps_user (env : Env) (message : Message) (w : World) :
  (users w !! from_user message = None \/
   exists r, http env ONEC_URL = HttpOk r /\ resp_status r <> 200) ->
  let w' := run (refresh_user env message) w in
  users w' = users w /\
  ctx w' = ctx w /\
  writes (log w') = writes (log w) /\
  head (log w') = Some refresh_failed /\
  (users w !! from_user message = None -> log w' = refresh_failed :: log w).
Proof.
  intros H w'. subst w'.
  unfold refresh_user, refresh_from_1c_by_tg, register_in_1c, post, js_dict. step.
  destruct (users w !! from_user message) as [u|] eqn:Hu; simpl.
  - destruct H as [H|(r & Hh & Hst)]; [discriminate|].
    rewrite Hh. simpl. apply Z.eqb_neq in Hst. rewrite Hst. simpl.
    repeat split. discriminate.
  - repeat split.
Qed.

Lemma refresh_failure_keeps_user_witness :
  let w' := run (refresh_user (env_http (HttpOk (mk_response 404 "" None)))
                   (mk_message "100" "/refresh")) sample_world in
  users w' = users sample_world /\ head (log w') = Some refresh_failed.
Proof.
  intros w'.
  destruct (refresh_failure_keeps_user (env_http (HttpOk (mk_response 404 "" None)))
              (mk_message "100" "/refresh") sample_world) as (H1 & _ & _ & H2 & _).
  - right. eexists. split; [reflexivity | simpl; lia].
  - split; [exact H1 | exact H2].
Defined.

(** X (/refresh cannot reach the backend).  /refresh has no handler for
    a transport failure: for a registered identity the exception leaves
    the handler, nothing is answered and no row changes. *)
Theorem refresh_transport_failure_is_unanswered
    (env : Env) (message : Message) (w : World) (u : User) (detail : string) :
  users w !! from_user message = Some u ->
  http env ONEC_URL = HttpError detail ->
  outcome (refresh_user env message) w = Raised (ClientError detail) /\
  users (run (refresh_user env message) w) = users w /\
  log (run (refresh_user env message) w)
    = Post ONEC_URL [("passport", JStr (passport u)); ("birthdate", JStr (birthdate u));
                     ("user_id", JStr (from_user message))] :: log w.
Proof.
  intros Hu Hh.
  unfold refresh_user, refresh_from_1c_by_tg, register_in_1c, post. step.
  rewrite Hu. simpl. rewrite Hh. simpl. repeat split.
Qed.

Lemma refresh_transport_failure_is_unanswered_witness :
  outcome (refresh_user sample_env (mk_message "100" "/refresh")) sample_world
    = Raised (ClientError "Cannot connect to host").
Proof.
  destruct (refresh_transport_failure_is_unanswered sample_env (mk_message "100" "/refresh")
              sample_world employee "Cannot connect to host") as (H & _).
  - reflexivity.
  - reflexivity.
  - exact H.
Defined.



(** ** The sync button *)







(** X (the sync does not look at the status).  Two answers of the HR
    backend with the same body give the same result and the same row,
    whatever their HTTP status: an error answer that carries a supervisor
    id is stored like a 200. *)
Theorem sync_ignores_status
    (env1 env2 : Env) (user_id : string) (w : World) (r1 r2 : response) :
  http env1 ONEC_SYNC_URL = HttpOk r1 ->
  http env2 ONEC_SYNC_URL = HttpOk r2 ->
  resp_json r1 = resp_json r2 ->
  outcome (sync_supervisor_from_1c env1 user_id) w
    = outcome (sync_supervisor_from_1c env2 user_id) w /\
  users (run (sync_supervisor_from_1c env1 user_id) w)
    = users (run (sync_supervisor_from_1c env2 user_id) w).
Proof.
  intros H1 H2 E.
  unfold sync_supervisor_from_1c, post, js_dict. step.
  destruct (users w !! user_id) as [u|]; simpl; [|split; reflexivity].
  destruct (negb (truthy (passport u)) || negb (truthy (birthdate u))); simpl;
    [split; reflexivity|].
  rewrite H1, H2. simpl. rewrite E.
  destruct (match resp_json r2 with Some js => js | None => JsDict ∅ end); simpl;
    split; reflexivity.
Qed.

Lemma sync_ignores_status_witness :
  let body := Some (JsDict (<["supervisor" := JStr "id 7654321"]> ∅)) in
  supervisor_tg_id <$>
    users (run (sync_supervisor_from_1c (env_http (HttpOk (mk_response 500 "error" body))) "100")
               sample_world) !! "100"
  = Some (Some "7654321").
Proof.
  intros body.
  destruct (sync_ignores_status (env_http (HttpOk (mk_response 500 "error" body)))
              (env_http (HttpOk (mk_response 200 "ok" body))) "100" sample_world
              (mk_response 500 "error" body) (mk_response 200 "ok" body)) as (_ & H).
  - reflexivity.
  - reflexivity.
  - reflexivity.
  - rewrite H. reflexivity.
Defined.

(** ** The tardy flow, from the reason to the request *)







(** ** The decision call *)

(** X (the decision call is best effort).  [send_decision_to_1c] never
    raises and changes neither table nor the conversation, whatever the
    HR backend does; it posts the decision, with the local time of the
    decision, exactly when the decision URL is configured. *)
Theorem send_decision_is_best_effort
    (env : Env) (req_id : Z) (r : TardyRequest) (decision emp_name mgr_name : string)
    (w : World) :
  let m := send_decision_to_1c env req_id r decision emp_name mgr_name in
  outcome m w = Ok tt /\
  users (run m w) = users w /\
  tardy_requests (run m w) = tardy_requests w /\
  ctx (run m w) = ctx w /\
  log (run m w)
    = if decision_url_set env
      then Post ONEC_DECISION_URL
             (decision_payload req_id r decision emp_name mgr_name (local_now_str env w))
           :: log w
      else log w.
Proof.
  unfold send_decision_to_1c, post, decision_payload, local_now_str. step.
  destruct (decision_url_set env); simpl; [|repeat split].
  destruct (http env ONEC_DECISION_URL); simpl; repeat split.
Qed.

(** ** Who decides *)

Lemma tardy_decide_cases env st label stt emoji ack cb w :
  tardy_requests (run (tardy_decide env st label stt emoji ack cb) w) = tardy_requests w \/
  exists r, tardy_requests w !! cb_req_id cb = Some r /\ status r = "pending" /\
            is_approver_of cb r /\
            tardy_requests (run (tardy_decide env st label stt emoji ack cb) w)
              = alter (set_status st) (cb_req_id cb) (tardy_requests w).
Proof.
  destruct (tardy_requests w !! cb_req_id cb) as [r|] eqn:Hr.
  - destruct (String.eqb_spec (status r) "pending") as [Hs|Hs].
    + destruct (String.eqb_spec (cb_from_user cb) (py_str (of_column (manager_tg_id r)))) as [Hu|Hu].
      * right. exists r. repeat split; try assumption.
        apply (tardy_decide_authorized env st label stt emoji ack cb w r); assumption.
      * left. unfold run.
        rewrite (tardy_decide_unauthorized env st label stt emoji ack cb w r Hr Hs Hu).
        reflexivity.
    + left. unfold run. rewrite (tardy_decide_not_pending env st label stt emoji ack cb w r Hr Hs).
      reflexivity.
  - left. unfold run. rewrite (tardy_decide_missing env st label stt emoji ack cb w Hr).
    reflexivity.
Qed.

(** What one update can do to the table of requests, with who did it. *)
Lemma handle_cases env u w :
  tardy_requests (run (handle env u) w) = tardy_requests w \/
  (exists r, status r = "pending" /\
             tardy_requests (run (handle env u) w) = <[next_rowid w := r]> (tardy_requests w)) \/
  (exists cb r st,
      (u = on_tardy_ok cb /\ st = "approved" \/ u = on_tardy_rej cb /\ st = "rejected") /\
      tardy_requests w !! cb_req_id cb = Some r /\ status r = "pending" /\
      is_approver_of cb r /\
      tardy_requests (run (handle env u) w)
        = alter (set_status st) (cb_req_id cb) (tardy_requests w)).
Proof.
  destruct u;
    try (match goal with
         | |- context [handle env ?u] =>
             pose proof (handle_frame env u w) as (_ & F & _)
         end;
         cbn [writes_requests] in F;
         match type of F with tardy_requests _ = _ => left; exact F end).
  - cbn [handle]. unfold tardy_end_time. step.
    cases; first [left; reflexivity | right; left; eexists; split; [|reflexivity]; reflexivity].
  - cbn [handle]. unfold tardy_approve.
    destruct (tardy_decide_cases env "approved" "✅ Одобрено" "Одобрено" "✅" "Одобрено" cb w)
      as [E|(r & Hr & Hs & Hu & E)]; [left; exact E|].
    right. right. exists cb, r, "approved". repeat split; try assumption. left. split; reflexivity.
  - cbn [handle]. unfold tardy_reject.
    destruct (tardy_decide_cases env "rejected" "❌ Отклонено" "Отказано" "❌" "Отклонено" cb w)
      as [E|(r & Hr & Hs & Hu & E)]; [left; exact E|].
    right. right. exists cb, r, "rejected". repeat split; try assumption. right. split; reflexivity.
Qed.

(** X (the status is one of three).  If every request has status
    pending, approved or rejected, it is so after any updates. *)
Theorem status_stays_valid (us : list (Env * Update)) (w : World) :
  (forall id r, tardy_requests w !! id = Some r -> valid_status r) ->
  forall id r, tardy_requests (handle_all us w) !! id = Some r -> valid_status r.
Proof.
  revert w. induction us as [|[env u] us IH]; intros w Hw; cbn [handle_all]; [exact Hw|].
  apply IH. intros id r Hr.
  destruct (handle_cases env u w) as [E|[(x & Hx & E)|(cb & x & st & Hst & Hl & Hs & _ & E)]];
    rewrite E in Hr.
  - exact (Hw id r Hr).
  - destruct (decide (next_rowid w = id)) as [<-|Hne].
    + rewrite lookup_insert_eq in Hr. injection Hr as <-. left. exact Hx.
    + rewrite lookup_insert_ne in Hr by assumption. exact (Hw id r Hr).
  - destruct (decide (cb_req_id cb = id)) as [<-|Hne].
    + rewrite lookup_alter_eq, Hl in Hr. injection Hr as <-.
      destruct Hst as [[_ ->]|[_ ->]]; [right; left | right; right]; reflexivity.
    + rewrite lookup_alter_ne in Hr by assumption. exact (Hw id r Hr).
Qed.

Lemma status_stays_valid_witness :
  valid_status (set_status "rejected" sample_request).
Proof.
  apply (status_stays_valid [(sample_env, on_tardy_rej (press "200" 1))] sample_world)
    with (id := 1).
  - intros id r Hr. destruct (decide (id = 1)) as [->|Hne].
    + vm_compute in Hr. injection Hr as <-. left. reflexivity.
    + unfold sample_world in Hr. cbn [tardy_requests] in Hr.
      rewrite lookup_insert_ne, lookup_empty in Hr by congruence. discriminate.
  - reflexivity.
Defined.

(** X (only the approver decides).  If a pending request is no longer
    pending after the bot handled some updates, one of those updates was
    a press on approve or reject for that request by the approver the
    request was created with. *)
Theorem only_the_approver_decides
    (us : list (Env * Update)) (w : World) (id : Z) (r : TardyRequest) :
  tardy_requests w !! id = Some r ->
  status r = "pending" ->
  status_at (handle_all us w) id <> Some "pending" ->
  exists env u, In (env, u) us /\ press_by_approver id r u.
Proof.
  revert w r. induction us as [|[env u] us IH]; intros w r Hr Hs Hd; cbn [handle_all] in Hd.
  - exfalso. apply Hd. unfold status_at. rewrite Hr. cbn. rewrite Hs. reflexivity.
  - destruct (handle_cases env u w) as [E|[(x & Hx & E)|(cb & x & st & Hst & Hl & Hp & Hu & E)]].
    + destruct (IH (run (handle env u) w) r) as (env' & u' & Hin & Hpress);
        [rewrite E; exact Hr | exact Hs | exact Hd |].
      exists env', u'. split; [right; exact Hin | exact Hpress].
    + destruct (IH (run (handle env u) w) r) as (env' & u' & Hin & Hpress);
        [|exact Hs | exact Hd |].
      * rewrite E, lookup_insert_ne; [exact Hr|].
        intros <-. rewrite next_rowid_fresh in Hr. discriminate.
      * exists env', u'. split; [right; exact Hin | exact Hpress].
    + destruct (decide (cb_req_id cb = id)) as [Heq|Hne].
      * exists env, u. split; [left; reflexivity|].
        exists cb. rewrite Heq in Hl. assert (x = r) by congruence. subst x.
        split; [destruct Hst as [[-> _]|[-> _]]; [left | right]; reflexivity|].
        split; assumption.
      * destruct (IH (run (handle env u) w) r) as (env' & u' & Hin & Hpress);
          [rewrite E, lookup_alter_ne by assumption; exact Hr | exact Hs | exact Hd |].
        exists env', u'. split; [right; exact Hin | exact Hpress].
Qed.

Lemma only_the_approver_decides_witness :
  exists env u, In (env, u) [(sample_env, on_tardy_ok (press "300" 1));
                             (sample_env, on_tardy_ok (press "200" 1))] /\
                press_by_approver 1 sample_request u.
Proof.
  apply (only_the_approver_decides
           [(sample_env, on_tardy_ok (press "300" 1)); (sample_env, on_tardy_ok (press "200" 1))]
           sample_world 1 sample_request).
  - reflexivity.
  - reflexivity.
  - vm_compute. discriminate.
Defined.

(** X (the approver who is notified can decide).  When the last step of
    the tardy flow creates a request and the approver id is written
    without leading zeros, the chat the request is sent to is the
    identity that may decide it: its press on approve or reject changes
    the status. *)
Theorem notified_approver_can_decide
    (env env' : Env) (message : Message) (w : World) (u : User) (s : string) (ts te : time)
    (d : decision) (cb : CallbackQuery) :
  parse_time_hhmm (strip (text message)) = Some te ->
  data (ctx w) !! "tardy_start" = Some s ->
  parse_time_hhmm s = Some ts ->
  time_lt te ts = false ->
  users w !! from_user message = Some u ->
  isdigit (strip (default "" (supervisor_tg_id u))) = true ->
  is_Some (data (ctx w) !! "tardy_reason") ->
  let approver := strip (default "" (supervisor_tg_id u)) in
  pretty (py_int approver) = approver ->
  cb_from_user cb = pretty (py_int approver) ->
  cb_req_id cb = next_rowid w ->
  let w1 := run (tardy_end_time env message) w in
  (exists txt, In (SendMessage (pretty (py_int approver)) (Text txt)
                               (Some (ikb_decision (next_rowid w)))) (log w1)) /\
  status_at w1 (next_rowid w) = Some "pending" /\
  status_at (run (handler_of d env' cb) w1) (next_rowid w) = Some (status_of d).
Proof.
  intros Hte Hs Hts Hlt Hu Hd [rs Hrs] approver Hcanon Hfrom Hid w1.
  assert (E : tardy_requests w1 !! next_rowid w
              = Some (mk_tardy (from_user message) (Some approver) rs (Some s)
                               (Some (strip (text message)))
                               (isoformat (utc_clock env (clock_reads w))) "pending")
              /\ exists txt, In (SendMessage (pretty (py_int approver)) (Text txt)
                                             (Some (ikb_decision (next_rowid w)))) (log w1)).
  { subst w1 approver. unfold tardy_end_time. rewrite Hte. step.
    rewrite Hs, (parse_time_hhmm_truthy _ _ Hts), Hts, Hlt, Hu, supervisor_or_empty, Hd, Hrs.
    simpl.
    destruct (deliverable env (pretty (py_int (strip (default "" (supervisor_tg_id u))))));
      simpl; (split; [apply lookup_insert_eq | eexists; right; left; reflexivity]). }
  destruct E as [E Hsend].
  split; [exact Hsend|]. split; [unfold status_at; rewrite E; reflexivity|].
  assert (Ha : is_approver_of cb
                 (mk_tardy (from_user message) (Some approver) rs (Some s)
                           (Some (strip (text message)))
                           (isoformat (utc_clock env (clock_reads w))) "pending")).
  { unfold is_approver_of. cbn. rewrite Hfrom. exact Hcanon. }
  rewrite <- Hid in E.
  unfold status_at. rewrite <- Hid.
  destruct d; cbn [handler_of status_of]; unfold tardy_approve, tardy_reject;
    edestruct tardy_decide_authorized as (T & _); try exact E; try exact Ha; try reflexivity;
    rewrite T, lookup_alter_eq, E; reflexivity.
Qed.

Lemma notified_approver_can_decide_witness :
  let w1 := run (tardy_end_time sample_env (mk_message "100" "09:45")) (waiting_end_world "09:20") in
  status_at (run (tardy_approve sample_env (press "200" 2)) w1) 2 = Some "approved".
Proof.
  intros w1.
  destruct (notified_approver_can_decide sample_env sample_env (mk_message "100" "09:45")
              (waiting_end_world "09:20") employee "09:20" (dtime 9 20) (dtime 9 45)
              Approve (press "200" 2)) as (_ & _ & H);
    [reflexivity | reflexivity | reflexivity | reflexivity | reflexivity | reflexivity
    | eexists; reflexivity | reflexivity | reflexivity | reflexivity |].
  exact H.
Defined.

(** With a leading zero in the stored supervisor id the request is sent
    to chat 200, whose press comes from identity "200"; the approver of
    the request is "0200", and the press is turned down. *)
Example leading_zero_approver_cannot_decide :
  let w1 := run (tardy_end_time sample_env (mk_message "100" "09:45")) zero_world in
  manager_tg_id <$> tardy_requests w1 !! 1 = Some (Some "0200") /\
  (exists txt, In (SendMessage "200" (Text txt) (Some (ikb_decision 1))) (log w1)) /\
  head (log (run (tardy_approve sample_env (press "200" 1)) w1)) = Some not_authorized /\
  status_at (run (tardy_approve sample_env (press "200" 1)) w1) 1 = Some "pending".
Proof.
  split; [reflexivity|]. split; [eexists; right; left; reflexivity|].
  split; reflexivity.
Qed.

(** ** Stamps read back ([to_local_hm_from_submitted]) *)

Lemma then_one {A B} (p : matcher A) (k : A -> matcher B) s a r :
  p s = [(a, r)] -> then_ p k s = k a r.
Proof.
  intros H. unfold then_. rewrite H. simpl. apply app_nil_r.
Qed.

Lemma then_none {A B} (p : matcher A) (k : A -> matcher B) s :
  p s = [] -> then_ p k s = [].
Proof. intros H. unfold then_. rewrite H. reflexivity. Qed.

Lemma then_reads {A B} (p : matcher A) (k : A -> matcher B) s a r :
  reads p s a r ->
  (forall a' x, digit_led (a', x) -> k a' x = []) ->
  then_ p k s = k a r.
Proof.
  intros (junk & Hp & Hj) Hk. unfold then_. rewrite Hp. simpl.
  assert (Q : flat_map (fun ar => k (fst ar) (snd ar)) junk = []).
  { clear Hp. induction Hj as [|[a' x] junk Hx Hj IH]; [reflexivity|].
    simpl. rewrite (Hk a' x Hx), IH. reflexivity. }
  rewrite Q. apply app_nil_r.
Qed.

Lemma then_yield_reads {A B} (p : matcher A) (f : A -> B) s a r :
  reads p s a r -> reads (then_ p (fun a => yield (f a))) s (f a) r.
Proof.
  intros (junk & Hp & Hj). unfold reads, first_of, then_. rewrite Hp. simpl.
  exists (flat_map (fun ar => yield (f (fst ar)) (snd ar)) junk). split; [reflexivity|].
  clear Hp. induction Hj as [|[a' x] junk Hx Hj IH]; [constructor|].
  simpl. constructor; [exact Hx | exact IH].
Qed.

Lemma upper_char_digit (c : ascii) : isdigit_char c = true -> upper_char c = c.
Proof.
  unfold isdigit_char, upper_char. intros H.
  apply andb_true_iff in H as [H1 H2]. apply Z.leb_le in H1, H2.
  destruct (97 <=? code c) eqn:E; [apply Z.leb_le in E; lia | reflexivity].
Qed.

(** A literal that is no digit does not read one. *)
Lemma lit_digit_led {B} (l : ascii) (k : ascii -> matcher B) (x : string) (u : unit) :
  isdigit_char (upper_char l) = false -> digit_led (u, x) -> then_ (lit l) k x = [].
Proof.
  intros Hl Hx. apply then_none. destruct x as [|c r]; [reflexivity|].
  unfold digit_led in Hx. simpl in Hx. unfold lit, chr.
  rewrite (upper_char_digit c Hx).
  destruct (Ascii.eqb_spec (upper_char l) c) as [E|E]; [|reflexivity].
  rewrite E in Hl. congruence.
Qed.

Lemma lit_same {B} (l : ascii) (k : ascii -> matcher B) (r : string) :
  then_ (lit l) k (String l r) = k l r.
Proof.
  apply then_one. unfold lit, chr. rewrite Ascii.eqb_refl. reflexivity.
Qed.

Lemma spaces_digit_led {B} (k : unit -> matcher B) (x : string) (u : unit) :
  digit_led (u, x) -> then_ spaces_plus k x = [].
Proof.
  intros Hx. apply then_none. destruct x as [|c r]; [reflexivity|].
  unfold digit_led in Hx. simpl in Hx.
  unfold spaces_plus. apply then_none. unfold chr.
  rewrite (isdigit_not_space c Hx). reflexivity.
Qed.

(** *** The directives on what [%02d] and [%04d] print *)

Ltac z_enum n lo count tac :=
  lazymatch count with
  | O => exfalso; lia
  | S ?c =>
      destruct (Z.eq_dec n lo) as [->|?];
      [ tac
      | let lo' := eval compute in (lo + 1) in z_enum n lo' c tac ]
  end.

Ltac reads_by_computing :=
  eexists; split; [reflexivity | repeat constructor].

Lemma dir_m_pad2 (m : Z) (r : string) :
  1 <= m <= 12 -> reads dir_m (pad2 m +:+ r) m r.
Proof.
  intros H. z_enum m 1 12%nat reads_by_computing.
Qed.

Lemma dir_d_pad2 (d : Z) (r : string) :
  1 <= d <= 31 -> reads dir_d (pad2 d +:+ r) d r.
Proof.
  intros H. z_enum d 1 31%nat reads_by_computing.
Qed.

Lemma dir_H_pad2 (h : Z) (r : string) :
  0 <= h <= 23 -> reads dir_H (pad2 h +:+ r) h r.
Proof.
  intros H. z_enum h 0 24%nat reads_by_computing.
Qed.

Lemma dir_M_pad2 (m : Z) (r : string) :
  0 <= m <= 59 -> reads dir_M (pad2 m +:+ r) m r.
Proof.
  intros H. z_enum m 0 60%nat reads_by_computing.
Qed.

Lemma dir_S_pad2 (s : Z) (r : string) :
  0 <= s <= 59 -> reads dir_S (pad2 s +:+ r) s r.
Proof.
  intros H. z_enum s 0 60%nat reads_by_computing.
Qed.

Lemma chr_digit {B} (n : Z) (k : ascii -> matcher B) (r : string) :
  then_ (chr isdigit_char) k (String (digit n) r) = k (digit n) r.
Proof.
  apply then_one. unfold chr. rewrite isdigit_digit. reflexivity.
Qed.

Lemma dir_Y_pad4 (y : Z) (r : string) :
  0 <= y <= 9999 -> dir_Y (pad4 y +:+ r) = [(y, r)].
Proof.
  intros H. unfold dir_Y, pad4, pad2. rewrite !append_cons, append_empty_l, !append_cons.
  rewrite append_empty_l.
  rewrite !chr_digit. unfold yield. rewrite (int4_pad4 y H). reflexivity.
Qed.

Ltac kill_digit_led :=
  let a := fresh "a" in let x := fresh "x" in let Hx := fresh "Hx" in
  intros a x Hx;
  first [ apply (lit_digit_led _ _ x tt); [reflexivity | exact Hx]
        | apply (spaces_digit_led _ x tt); exact Hx ].

Ltac split_bounds H :=
  repeat (apply andb_true_iff in H; destruct H as [H ?]);
  repeat match goal with
         | B : (_ <=? _) = true |- _ => apply Z.leb_le in B
         end.

Lemma ymd_reads (d : date) (r : string) :
  valid_date d = true -> reads ymd (fmt_date d +:+ r) d r.
Proof.
  intros H. destruct d as [y m dd]. unfold valid_date in H. simpl in H. split_bounds H.
  pose proof (days_in_month_bound y m) as Hd.
  unfold reads, ymd, fmt_date. cbn [year month day].
  rewrite !append_assoc, !append_cons, !append_empty_l.
  rewrite (then_one dir_Y _ _ y _ (dir_Y_pad4 y _ ltac:(lia))).
  rewrite lit_same.
  rewrite (then_reads dir_m _ _ m _ (dir_m_pad2 m _ ltac:(lia))) by kill_digit_led.
  rewrite lit_same.
  exact (then_yield_reads dir_d (fun d0 => mk_date y m d0) _ dd r (dir_d_pad2 dd r ltac:(lia))).
Qed.

Lemma hms_reads (t : time) (r : string) :
  valid_time t = true ->
  reads hms (fmt_hms t +:+ r) (hour t, minute t, second t) r.
Proof.
  intros H. destruct t as [h m s us]. unfold valid_time in H. simpl in H. split_bounds H.
  unfold reads, hms, fmt_hms. cbn [hour minute second].
  rewrite !append_assoc, !append_cons, !append_empty_l.
  rewrite (then_reads dir_H _ _ h _ (dir_H_pad2 h _ ltac:(lia))) by kill_digit_led.
  rewrite lit_same.
  rewrite (then_reads dir_M _ _ m _ (dir_M_pad2 m _ ltac:(lia))) by kill_digit_led.
  rewrite lit_same.
  exact (then_yield_reads dir_S (fun s0 => (h, m, s0)) _ s r (dir_S_pad2 s r ltac:(lia))).
Qed.

(** *** The three formats on the two ways a stamp is printed *)

Lemma append_empty_r (s : string) : s +:+ "" = s.
Proof. induction s as [|c s IH]; [reflexivity|]. rewrite append_cons, IH. reflexivity. Qed.

Lemma has_char_app (c : ascii) (a b : string) :
  has_char c (a +:+ b) = has_char c a || has_char c b.
Proof.
  induction a as [|x a IH]; [reflexivity|].
  rewrite append_cons. simpl. rewrite IH. apply orb_assoc.
Qed.

Lemma not_T_digit (n : Z) : Ascii.eqb "T" (digit n) = false.
Proof.
  destruct (Ascii.eqb_spec "T" (digit n)) as [E|E]; [|reflexivity].
  pose proof (isdigit_digit n) as H. rewrite <- E in H. discriminate H.
Qed.

Lemma no_T_pad2 (n : Z) : has_char "T" (pad2 n) = false.
Proof. unfold pad2. cbn [has_char]. rewrite !not_T_digit. reflexivity. Qed.

Lemma no_T_fmt_date (d : date) : has_char "T" (fmt_date d) = false.
Proof.
  unfold fmt_date, pad4. rewrite !has_char_app, !no_T_pad2. reflexivity.
Qed.

Lemma no_T_fmt_hms (t : time) : has_char "T" (fmt_hms t) = false.
Proof.
  unfold fmt_hms. rewrite !has_char_app, !no_T_pad2. reflexivity.
Qed.

Lemma fmt_hms_digit_led (t : time) (r : string) :
  exists c x, fmt_hms t +:+ r = String c x /\ isdigit_char c = true.
Proof.
  unfold fmt_hms, pad2. rewrite !append_cons. eexists; eexists. split; [reflexivity|].
  apply isdigit_digit.
Qed.

Lemma fmt_date_truthy (d : date) (r : string) : truthy (fmt_date d +:+ r) = true.
Proof. unfold fmt_date, pad4, pad2. rewrite !append_cons. reflexivity. Qed.

(** The format with a blank does not read a stamp with another separator. *)
Lemma fmt_space_other_separator (d : date) (c : ascii) (r : string) :
  valid_date d = true -> isspace c = false ->
  fmt_space (fmt_date d +:+ String c r) = [].
Proof.
  intros Hd Hc. unfold fmt_space.
  rewrite (then_reads ymd _ _ d _ (ymd_reads d _ Hd)) by kill_digit_led.
  apply then_none. unfold spaces_plus. apply then_none. unfold chr. rewrite Hc. reflexivity.
Qed.

Lemma spaces_plus_blank (r : string) :
  (exists c x, r = String c x /\ isdigit_char c = true) ->
  spaces_plus (String " " r) = [(tt, r)].
Proof.
  intros (c & x & -> & Hc). unfold spaces_plus.
  rewrite then_one with (a := " "%char) (r := String c x) by reflexivity.
  simpl. rewrite (isdigit_not_space c Hc). reflexivity.
Qed.

Lemma fmt_space_reads (d : date) (t : time) :
  valid_date d = true -> valid_time t = true ->
  reads fmt_space (fmt_date d +:+ " " +:+ fmt_hms t)
        (mk_datetime d (dtime4 (hour t) (minute t) (second t) 0)) "".
Proof.
  intros Hd Ht. unfold reads, fmt_space.
  rewrite (then_reads ymd _ _ d _ (ymd_reads d _ Hd)) by kill_digit_led.
  rewrite append_cons, append_empty_l.
  rewrite (then_one spaces_plus _ _ tt _ (spaces_plus_blank _ (fmt_hms_digit_led t ""))).
  rewrite append_empty_r.
  pose proof (hms_reads t "" Ht) as R. rewrite append_empty_r in R.
  exact (then_yield_reads hms
           (fun x => mk_datetime d (dtime4 (fst (fst x)) (snd (fst x)) (snd x) 0)) _ _ _ R).
Qed.

Lemma fmt_T_reads (d : date) (t : time) :
  valid_date d = true -> valid_time t = true ->
  reads fmt_T (fmt_date d +:+ "T" +:+ fmt_hms t)
        (mk_datetime d (dtime4 (hour t) (minute t) (second t) 0)) "".
Proof.
  intros Hd Ht. unfold reads, fmt_T.
  rewrite (then_reads ymd _ _ d _ (ymd_reads d _ Hd)) by kill_digit_led.
  rewrite append_cons, append_empty_l, lit_same.
  pose proof (hms_reads t "" Ht) as R. rewrite append_empty_r in R.
  exact (then_yield_reads hms
           (fun x => mk_datetime d (dtime4 (fst (fst x)) (snd (fst x)) (snd x) 0)) _ _ _ R).
Qed.

(** Without a fraction the format with [.%f] reads nothing. *)
Lemma fmt_T_f_no_fraction (d : date) (t : time) :
  valid_date d = true -> valid_time t = true ->
  fmt_T_f (fmt_date d +:+ "T" +:+ fmt_hms t) = [].
Proof.
  intros Hd Ht. unfold fmt_T_f.
  rewrite (then_reads ymd _ _ d _ (ymd_reads d _ Hd)) by kill_digit_led.
  rewrite append_cons, append_empty_l, lit_same.
  pose proof (hms_reads t "" Ht) as R. rewrite append_empty_r in R.
  rewrite (then_reads hms _ _ _ _ R) by kill_digit_led.
  reflexivity.
Qed.

Lemma digits_upto_all (n : nat) : forall (ds acc : string),
  all_chars isdigit_char ds = true -> (String.length ds <= n)%nat ->
  exists junk, digits_upto n acc ds = (acc +:+ ds, "") :: junk.
Proof.
  induction n as [|n IH]; intros ds acc Hds Hn.
  - destruct ds; [|simpl in Hn; lia]. exists []. simpl. rewrite append_empty_r. reflexivity.
  - destruct ds as [|c r].
    + exists []. simpl. rewrite append_empty_r. reflexivity.
    + simpl in Hds. apply andb_true_iff in Hds as [Hc Hr]. simpl in Hn.
      destruct (IH r (acc +:+ String c "") Hr ltac:(lia)) as (junk & E).
      simpl. change (digit_in 0 9 c) with (isdigit_char c). rewrite Hc, E.
      rewrite append_assoc, append_cons, append_empty_l.
      eexists. reflexivity.
Qed.

Lemma pad6_digits (us : Z) :
  exists c ds, pad6 us = String c ds /\ isdigit_char c = true /\
               all_chars isdigit_char ds = true /\ String.length ds = 5%nat.
Proof.
  unfold pad6, pad4, pad2. rewrite !append_cons, !append_empty_l.
  eexists; eexists. split; [reflexivity|].
  simpl. rewrite !isdigit_digit. repeat split; reflexivity.
Qed.

Lemma int_of_pad6 (us : Z) :
  0 <= us <= 999999 -> int_of 0 (pad_right 6 (pad6 us)) = us.
Proof.
  intros H. unfold pad6, pad4, pad2. rewrite !append_cons, !append_empty_l.
  simpl. rewrite !digit_val_digit. Z.div_mod_to_equations. lia.
Qed.

Lemma dir_f_pad6 (us : Z) :
  0 <= us <= 999999 -> exists junk, dir_f (pad6 us) = (us, "") :: junk.
Proof.
  intros H. destruct (pad6_digits us) as (c & ds & E & Hc & Hds & Hl).
  pose proof (int_of_pad6 us H) as V. rewrite E in *.
  destruct (digits_upto_all 5 ds (String c "") Hds ltac:(lia)) as (junk & J).
  assert (C : chr (digit_in 0 9) (String c ds) = [(c, ds)])
    by (unfold chr; change (digit_in 0 9 c) with (isdigit_char c); rewrite Hc; reflexivity).
  unfold dir_f. rewrite (then_one _ _ _ c ds C).
  unfold then_. rewrite J. cbn [flat_map fst snd app yield].
  rewrite append_cons, append_empty_l, V. eexists. reflexivity.
Qed.

Lemma strptime_fmt_T_f (d : date) (t : time) :
  valid_date d = true -> valid_time t = true ->
  strptime fmt_T_f (fmt_date d +:+ "T" +:+ fmt_hms t +:+ "." +:+ pad6 (microsecond t))
  = Some (mk_datetime d t).
Proof.
  intros Hd Ht. unfold strptime, fmt_T_f.
  rewrite (then_reads ymd _ _ d _ (ymd_reads d _ Hd)) by kill_digit_led.
  rewrite append_cons, append_empty_l, lit_same.
  rewrite (then_reads hms _ _ _ _ (hms_reads t _ Ht)) by kill_digit_led.
  rewrite append_cons, append_empty_l, lit_same.
  assert (Hus : 0 <= microsecond t <= 999999)
    by (pose proof Ht as Q; unfold valid_time in Q; split_bounds Q; lia).
  destruct (dir_f_pad6 (microsecond t) Hus) as (junk & E).
  unfold then_ at 1. rewrite E. simpl.
  unfold valid_datetime. simpl. rewrite Hd. destruct t as [h m s us]. simpl in *.
  rewrite Ht. reflexivity.
Qed.

Lemma strptime_first_of (fmt : matcher datetime) (s : string) (dt : datetime) :
  reads fmt s dt "" -> valid_datetime dt = true -> strptime fmt s = Some dt.
Proof.
  intros (junk & E & _) V. unfold strptime. rewrite E. simpl. rewrite V. reflexivity.
Qed.

(** What [isoformat] prints is read back as the same date and time. *)
Lemma first_parsed_isoformat (dt : datetime) :
  valid_datetime dt = true ->
  first_parsed [fmt_space; fmt_T_f; fmt_T] (isoformat dt) = Some dt.
Proof.
  intros V. destruct dt as [d t]. pose proof V as V'.
  unfold valid_datetime in V'. simpl in V'. apply andb_true_iff in V' as [Hd Ht].
  unfold isoformat. cbn [date_of time_of].
  unfold first_parsed, strptime at 1.
  rewrite append_cons, append_empty_l.
  rewrite (fmt_space_other_separator d "T" _ Hd) by reflexivity.
  destruct (microsecond t =? 0) eqn:U.
  - apply Z.eqb_eq in U. rewrite append_empty_r.
    unfold strptime at 1.
    pose proof (fmt_T_f_no_fraction d t Hd Ht) as F.
    rewrite append_cons, append_empty_l in F. rewrite F.
    pose proof (fmt_T_reads d t Hd Ht) as R. rewrite append_cons, append_empty_l in R.
    assert (Q : mk_datetime d (dtime4 (hour t) (minute t) (second t) 0) = mk_datetime d t)
      by (destruct t; simpl in *; subst; reflexivity).
    rewrite Q in R. rewrite (strptime_first_of _ _ _ R V). reflexivity.
  - pose proof (strptime_fmt_T_f d t Hd Ht) as F.
    rewrite !append_cons, !append_empty_l in F. rewrite append_cons, append_empty_l.
    rewrite F. reflexivity.
Qed.

(** What [strftime("%Y-%m-%d %H:%M:%S")] prints is read back to the second. *)
Lemma first_parsed_ymd_hms (dt : datetime) :
  valid_datetime dt = true ->
  first_parsed [fmt_space; fmt_T_f; fmt_T] (strftime_ymd_hms dt)
  = Some (mk_datetime (date_of dt)
            (dtime4 (hour (time_of dt)) (minute (time_of dt)) (second (time_of dt)) 0)).
Proof.
  intros V. destruct dt as [d t]. pose proof V as V'.
  unfold valid_datetime in V'. simpl in V'. apply andb_true_iff in V' as [Hd Ht].
  unfold strftime_ymd_hms. cbn [date_of time_of]. unfold first_parsed.
  rewrite (strptime_first_of _ _ _ (fmt_space_reads d t Hd Ht)); [reflexivity|].
  unfold valid_datetime. simpl. rewrite Hd.
  unfold valid_time in *. simpl. destruct t as [h m s us]. simpl in *.
  split_bounds Ht.
  repeat (apply andb_true_iff; split); apply Z.leb_le; lia.
Qed.

(** X (a stamp is shown in local time).  [submitted_now_str] stamps a
    request with the UTC clock in ISO format (with the microseconds, when
    there are any), and [to_local_hm_from_submitted] reads every such
    stamp back and converts it: what the listing shows as the time of
    sending is the local HH:MM of the instant of the stamp, the string
    [now_local_hm] gives at the same reading of the clock.  When the
    local date of the instant falls outside the years 1..9999 the
    conversion raises [OverflowError] instead. *)
Theorem stamp_is_shown_in_local_time (env : Env) (w : World) :
  valid_datetime (utc_clock env (clock_reads w)) = true ->
  exists stamp hm,
    outcome (submitted_now_str env) w = Ok stamp /\
    outcome (now_local_hm env) w = Ok hm /\
    to_local_hm_from_submitted env stamp =
      match astimezone_checked (TIMEZONE env) (utc_clock env (clock_reads w)) with
      | Some _ => Some hm
      | None => None
      end.
Proof.
  intros V. set (utc := utc_clock env (clock_reads w)) in *.
  exists (isoformat utc), (strftime_hm (astimezone (TIMEZONE env) utc)).
  split; [reflexivity|]. split; [reflexivity|].
  unfold to_local_hm_from_submitted.
  assert (T : truthy (isoformat utc) = true) by (unfold isoformat; apply fmt_date_truthy).
  assert (H : has_char "T" (isoformat utc) = true).
  { unfold isoformat. rewrite has_char_app. rewrite (has_char_app _ "T").
    cbn [has_char Ascii.eqb Bool.eqb]. cbn [orb andb]. apply orb_true_r. }
  rewrite T, (first_parsed_isoformat utc V), H. cbn [negb].
  unfold astimezone_checked.
  destruct ((1 <=? year (date_of (astimezone (TIMEZONE env) utc)))
            && (year (date_of (astimezone (TIMEZONE env) utc)) <=? 9999)); reflexivity.
Qed.

Lemma stamp_is_shown_in_local_time_witness :
  valid_datetime (utc_clock sample_env 0) = true /\
  exists stamp hm,
    outcome (submitted_now_str sample_env) sample_world = Ok stamp /\
    outcome (now_local_hm sample_env) sample_world = Ok hm /\
    to_local_hm_from_submitted sample_env stamp = Some hm.
Proof.
  split; [reflexivity|].
  apply (stamp_is_shown_in_local_time sample_env sample_world). reflexivity.
Defined.

(** X (a local stamp is shown as it is).  A stamp in the format the
    docstrings promise, [YYYY-MM-DD HH:MM:SS], is read by the first
    format and never converted: the listing shows its HH:MM, whatever the
    time zone of the deployment. *)
Theorem local_stamp_is_shown_as_it_is (env : Env) (dt : datetime) :
  valid_datetime dt = true ->
  to_local_hm_from_submitted env (strftime_ymd_hms dt) = Some (strftime_hm dt).
Proof.
  intros V. unfold to_local_hm_from_submitted.
  assert (T : truthy (strftime_ymd_hms dt) = true)
    by (unfold strftime_ymd_hms; apply fmt_date_truthy).
  assert (H : has_char "T" (strftime_ymd_hms dt) = false).
  { unfold strftime_ymd_hms. rewrite !has_char_app, no_T_fmt_date, no_T_fmt_hms. reflexivity. }
  rewrite T, (first_parsed_ymd_hms dt V), H. reflexivity.
Qed.

Lemma local_stamp_is_shown_as_it_is_witness :
  to_local_hm_from_submitted sample_env "2024-03-05 09:00:00" = Some "09:00".
Proof.
  apply (local_stamp_is_shown_as_it_is sample_env
           (mk_datetime (mk_date 2024 3 5) (dtime4 9 0 0 0))).
  reflexivity.
Defined.

(** ** The listing ([tardy_list]) *)

Lemma offers_nil (id : Z) : ~ offers [] id.
Proof. intros (t & []). Qed.

Lemma offers_app (l l' : list event) (id : Z) :
  offers (l ++ l') id <-> offers l id \/ offers l' id.
Proof.
  unfold offers. split.
  - intros (t & H). apply in_app_or in H as [H|H]; [left|right]; exists t; exact H.
  - intros [(t & H)|(t & H)]; exists t; apply in_or_app; [left|right]; exact H.
Qed.

Lemma offers_one (text : string) (id id' : Z) :
  offers [Answer text (Some (ikb_decision id))] id' <-> id' = id.
Proof.
  unfold offers. split.
  - intros (t & [H|[]]). congruence.
  - intros ->. exists text. left. reflexivity.
Qed.

Lemma offers_plain (text : string) (id : Z) : ~ offers [Answer text None] id.
Proof. intros (t & [H|[]]). discriminate H. Qed.

Lemma list_rows_cons (env : Env) (row : Z * TardyRequest) rest (w : World) :
  list_rows env (row :: rest) w =
  match to_local_hm_from_submitted env (submitted_at (snd row)) with
  | None => (Ok OverflowError, w)
  | Some hm =>
      list_rows env rest
        (with_event
           (Answer (listing_text (fst row) (snd row)
                      match users w !! employee_tg_id (snd row) with
                      | Some emp => py_str (of_column (full_name emp))
                      | None => employee_tg_id (snd row)
                      end hm)
                   (Some (ikb_decision (fst row)))) w)
  end.
Proof.
  cbn [list_rows]. unfold bind at 1. unfold get_user, gets.
  destruct (to_local_hm_from_submitted env (submitted_at (snd row))); reflexivity.
Qed.

(** The loop only sends messages: one for each row, with the buttons of
    that row, until a stamp cannot be shown. *)
Lemma list_rows_spec (env : Env) (rows : list (Z * TardyRequest)) : forall w,
  exists new res,
    list_rows env rows w = (Ok res, mk_world (users w) (tardy_requests w) (tardy_seq w)
                                             (ctx w) (clock_reads w) (new ++ log w)%list) /\
    Forall is_answer new /\
    (forall id, offers new id -> In id (map fst rows)) /\
    (res = Returned -> forall id, In id (map fst rows) -> offers new id).
Proof.
  induction rows as [|row rows IH]; intros w.
  - exists [], Returned. split; [destruct w; reflexivity|]. split; [constructor|].
    split; [intros id H; destruct (offers_nil id H) | intros _ id []].
  - rewrite list_rows_cons.
    destruct (to_local_hm_from_submitted env (submitted_at (snd row))) as [hm|].
    + match goal with |- context [with_event ?e w] => set (ev := e) end.
      destruct (IH (with_event ev w)) as (new & res & E & A & S & C).
      exists (new ++ [ev])%list, res. rewrite E. split.
      { simpl. rewrite <- app_assoc. reflexivity. }
      split.
      { apply Forall_app. split; [exact A | repeat constructor]. }
      split.
      * intros id H. apply offers_app in H as [H|H].
        -- right. exact (S id H).
        -- left. symmetry. exact (proj1 (offers_one _ _ _) H).
      * intros R id [H|H]; apply offers_app.
        -- right. apply offers_one. symmetry. exact H.
        -- left. exact (C R id H).
    + exists [], OverflowError. split; [destruct w; reflexivity|]. split; [constructor|].
      split; [intros id H; destruct (offers_nil id H) | discriminate].
Qed.

Lemma insert_desc_In (x y : Z * TardyRequest) (l : list (Z * TardyRequest)) :
  In y (insert_desc x l) <-> y = x \/ In y l.
Proof.
  induction l as [|z l IH]; simpl.
  - split; [intros [H|[]]; left; congruence | intros [H|[]]; left; congruence].
  - destruct (text_lt (submitted_at (snd x)) (submitted_at (snd z))); simpl.
    + rewrite IH. split; [intros [H|[H|H]] | intros [H|[H|H]]]; auto.
    + split; [intros [H|H] | intros [H|H]]; auto.
Qed.

Lemma order_by_In (y : Z * TardyRequest) (l : list (Z * TardyRequest)) :
  In y (order_by_submitted_at_desc l) <-> In y l.
Proof.
  induction l as [|x l IH]; simpl; [reflexivity|].
  rewrite insert_desc_In, IH. split; intros [H|H]; auto.
Qed.

(** The rows the query gives are the pending requests of the manager. *)
Lemma pending_rows_In (w : World) (m : string) (id : Z) :
  In id (map fst (order_by_submitted_at_desc
                    (List.filter (is_pending_for m) (map_to_list (tardy_requests w)))))
  <-> pending_for w m id.
Proof.
  rewrite in_map_iff. split.
  - intros ([id' r] & E & H). simpl in E. subst id'.
    apply order_by_In, filter_In in H as [H P].
    apply list_elem_of_In, elem_of_map_to_list in H.
    unfold is_pending_for in P. simpl in P.
    destruct (manager_tg_id r) as [m'|] eqn:Em; [|discriminate].
    apply andb_true_iff in P as [P1 P2].
    apply String.eqb_eq in P1, P2. subst m'.
    exists r. repeat split; assumption.
  - intros (r & H & Em & Es). exists (id, r). split; [reflexivity|].
    apply order_by_In, filter_In. split.
    + apply list_elem_of_In, elem_of_map_to_list. exact H.
    + unfold is_pending_for. simpl. rewrite Em, Es, String.eqb_refl. reflexivity.
Qed.

(** How the handler runs, by what the store holds. *)
Lemma tardy_list_spec (env : Env) (message : Message) (w : World) :
  exists new res,
    tardy_list env message w = (Ok res, mk_world (users w) (tardy_requests w) (tardy_seq w)
                                                 (ctx w) (clock_reads w) (new ++ log w)%list) /\
    Forall is_answer new /\
    (forall id, offers new id ->
                flagged_manager w (from_user message) /\ pending_for w (from_user message) id) /\
    (res = Returned -> forall id,
       flagged_manager w (from_user message) -> pending_for w (from_user message) id ->
       offers new id).
Proof.
  unfold tardy_list. unfold bind at 1. unfold get_user, gets.
  destruct (users w !! from_user message) as [me|] eqn:Eu.
  2: { eexists [_], Returned. split; [destruct w; reflexivity|].
       split; [repeat constructor|]. split.
       - intros id H. destruct (offers_plain _ _ H).
       - intros _ id (u & Hu & _). congruence. }
  destruct (is_manager me) eqn:Em; cbn [negb].
  2: { eexists [_], Returned. split; [destruct w; reflexivity|].
       split; [repeat constructor|]. split.
       - intros id H. destruct (offers_plain _ _ H).
       - intros _ id (u & Hu & Hm). congruence. }
  unfold bind at 1. unfold get_pending_tardy_for_manager, gets.
  pose proof (pending_rows_In w (from_user message)) as P.
  remember (order_by_submitted_at_desc
              (List.filter (is_pending_for (from_user message))
                           (map_to_list (tardy_requests w)))) as rows eqn:Er.
  clear Er.
  assert (F : flagged_manager w (from_user message)) by (exists me; split; assumption).
  destruct rows as [|row rest].
  - eexists [_], Returned. split; [destruct w; reflexivity|].
       split; [repeat constructor|]. split.
    + intros id H. destruct (offers_plain _ _ H).
    + intros _ id _ H. apply P in H. destruct H.
  - destruct (list_rows_spec env (row :: rest) w) as (new & res & E & A & S & C).
    exists new, res. split; [exact E|]. split; [exact A|]. split.
    + intros id H. split; [exact F|]. apply P, S, H.
    + intros R id _ H. apply (C R), P, H.
Qed.

(** *** The order of the listing *)

Lemma text_lt_asym (a b : string) : text_lt a b = true -> text_lt b a = false.
Proof.
  unfold text_lt. rewrite (String.compare_antisym a b).
  destruct (String.compare b a); simpl; congruence.
Qed.

Lemma insert_desc_newest_first (x : Z * TardyRequest) (l : list (Z * TardyRequest)) :
  newest_first l -> newest_first (insert_desc x l).
Proof.
  induction l as [|z l IH]; intros H.
  - simpl. split; exact I.
  - cbn [insert_desc].
    destruct (text_lt (submitted_at (snd x)) (submitted_at (snd z))) eqn:E.
    + destruct H as [Hz Hl]. specialize (IH Hl). split; [|exact IH].
      destruct l as [|y l]; cbn [insert_desc].
      * apply text_lt_asym, E.
      * destruct (text_lt (submitted_at (snd x)) (submitted_at (snd y)));
          [exact Hz | apply text_lt_asym, E].
    + split; [exact E | exact H].
Qed.

(** The rows of the query come newest first. *)
Lemma order_by_newest_first (l : list (Z * TardyRequest)) :
  newest_first (order_by_submitted_at_desc l).
Proof.
  induction l as [|x l IH]; [exact I|].
  apply insert_desc_newest_first, IH.
Qed.

(** Two pending requests: the later one is shown first (the log has the
    last message first), its missing start time and its empty reason as
    they are rendered, its stamp with microseconds read and converted. *)
Example listing_of_two_requests :
  log (run (tardy_list sample_env (ask_list "200")) two_requests_world) =
  [ Answer ("Запрос #1" +:+ nl +:+ "Сотрудник: Employee" +:+ nl +:+
            "Период: 09:20–09:45" +:+ nl +:+ "Причина: traffic" +:+ nl +:+
            "Отправлено: 09:00")
           (Some (ikb_decision 1));
    Answer ("Запрос #3" +:+ nl +:+ "Сотрудник: Employee" +:+ nl +:+
            "Период: —–10:15" +:+ nl +:+ "Причина: " +:+ nl +:+
            "Отправлено: 09:30")
           (Some (ikb_decision 3)) ].
Proof. vm_compute. reflexivity. Qed.

(** X (the listing shows the pending requests).  When [tardy_list]
    returns, it has sent replies to the chat and has done nothing else:
    the two tables, the counter of ids and the conversation are as they
    were.  It has shown a message with the two decision buttons of a
    request exactly for the requests that are pending and addressed to
    the sender, and only to a sender registered with the manager flag. *)
Theorem listing_offers_the_pending_requests (env : Env) (message : Message) (w : World) :
  outcome (tardy_list env message) w = Ok Returned ->
  exists new,
    only_logs new w (run (tardy_list env message) w) /\
    Forall is_answer new /\
    forall id, offers new id <->
               flagged_manager w (from_user message) /\ pending_for w (from_user message) id.
Proof.
  intros R. destruct (tardy_list_spec env message w) as (new & res & E & A & S & C).
  unfold outcome in R. unfold run, only_logs. rewrite E in *. simpl in R.
  assert (Q : res = Returned) by congruence.
  exists new. split; [reflexivity|]. split; [exact A|].
  intros id. split; [apply S | intros [F P]; exact (C Q id F P)].
Qed.

Lemma listing_offers_the_pending_requests_witness :
  exists new,
    only_logs new sample_world (run (tardy_list sample_env (ask_list "200")) sample_world) /\
    Forall is_answer new /\
    forall id, offers new id <->
               flagged_manager sample_world "200" /\ pending_for sample_world "200" id.
Proof.
  apply (listing_offers_the_pending_requests sample_env (ask_list "200") sample_world).
  vm_compute. reflexivity.
Defined.

(** X (a button of the listing is accepted).  Whether [tardy_list]
    returns or stops at a stamp, every request whose buttons it has shown
    is pending and addressed to the one who asked: when that identity
    presses one of the two buttons next, the press passes both checks of
    the decision handler and the request gets that status. *)
Theorem offered_button_is_accepted
    (env env' : Env) (message : Message) (w : World) (new : list event)
    (d : decision) (id : Z) (text : string) :
  log (run (tardy_list env message) w) = (new ++ log w)%list ->
  offers new id ->
  status_at (run (handler_of d env' (mk_cb (from_user message) id text))
                 (run (tardy_list env message) w)) id
  = Some (status_of d).
Proof.
  intros L O. destruct (tardy_list_spec env message w) as (new' & res & E & _ & S & _).
  set (w' := mk_world (users w) (tardy_requests w) (tardy_seq w) (ctx w) (clock_reads w)
                      (new' ++ log w)%list) in *.
  assert (Rw : run (tardy_list env message) w = w') by (unfold run; rewrite E; reflexivity).
  rewrite Rw in *. cbn [w' log] in L.
  apply app_inv_tail in L. subst new'.
  destruct (S id O) as (_ & r & Hr & Em & Es).
  set (cb := mk_cb (from_user message) id text).
  assert (Hr' : tardy_requests w' !! cb_req_id cb = Some r) by exact Hr.
  assert (Ha : is_approver_of cb r) by (unfold is_approver_of; rewrite Em; reflexivity).
  unfold status_at.
  destruct d; unfold handler_of, status_of, tardy_approve, tardy_reject;
    match goal with
    | |- context [tardy_decide env' ?st ?l ?stt ?em ?ack cb] =>
        destruct (tardy_decide_authorized env' st l stt em ack cb w' r Hr' Es Ha) as (T & _)
    end;
    rewrite T; change id with (cb_req_id cb);
    rewrite lookup_alter_eq, Hr'; reflexivity.
Qed.

Lemma offered_button_is_accepted_witness :
  status_at (run (handler_of Approve sample_env (mk_cb "200" 1 "Запрос #1"))
                 (run (tardy_list sample_env (ask_list "200")) sample_world)) 1
  = Some "approved".
Proof.
  apply (offered_button_is_accepted sample_env sample_env (ask_list "200") sample_world
           (log (run (tardy_list sample_env (ask_list "200")) sample_world)) Approve 1).
  - vm_compute. reflexivity.
  - vm_compute. eexists. left. reflexivity.
Defined.

(** X (a decided request leaves the listing).  Once a request has a
    status other than [pending], no later listing shows its buttons to
    anyone, whatever updates the bot handles in between. *)
Theorem decided_request_is_not_listed_again
    (us : list (Env * Update)) (env : Env) (message : Message) (w : World)
    (id : Z) (s : string) (new : list event) :
  status_at w id = Some s ->
  s <> "pending" ->
  log (run (tardy_list env message) (handle_all us w)) = (new ++ log (handle_all us w))%list ->
  ~ offers new id.
Proof.
  intros Hs Hp L O. unfold status_at in Hs.
  destruct (tardy_requests w !! id) as [r|] eqn:Hr; [|discriminate].
  simpl in Hs. injection Hs as Hs.
  assert (K : tardy_requests (handle_all us w) !! id = Some r)
    by (apply (handle_all_keeps_decided us w id r Hr); congruence).
  destruct (tardy_list_spec env message (handle_all us w)) as (new' & res & E & _ & S & _).
  unfold run in L. rewrite E in L. cbn [snd log] in L.
  apply app_inv_tail in L. subst new'.
  destruct (S id O) as (_ & r' & Hr' & _ & Es). congruence.
Qed.

Lemma decided_request_is_not_listed_again_witness :
  ~ offers [Answer "Нет новых запросов." None] 1.
Proof.
  apply (decided_request_is_not_listed_again [] sample_env (ask_list "200") approved_world
           1 "approved").
  - vm_compute. reflexivity.
  - discriminate.
  - vm_compute. reflexivity.
Defined.

(** One stamp that cannot be shown hides the whole listing: request 2 is
    stamped an hour before the end of the year 9999, it is the newest and
    comes first, and its conversion to Tashkent time leaves the range of
    [datetime].  Request 1 is never shown. *)
Example listing_stops_at_a_stamp :
  tardy_list sample_env (ask_list "200") last_day_world = (Ok OverflowError, last_day_world).
Proof. vm_compute. reflexivity. Qed.

(** A separator [t] is read as [T] by the second and third format, but the
    time is then not converted; more than one blank, or a tab, is read by
    the first format; a leap second is no time of [datetime], and such a
    stamp is shown as it is. *)
Example to_local_hm_from_submitted_examples :
  to_local_hm_from_submitted sample_env "" = Some "—" /\
  to_local_hm_from_submitted sample_env "2024-03-05T04:00:00" = Some "09:00" /\
  to_local_hm_from_submitted sample_env "2024-03-05T04:00:00.5" = Some "09:00" /\
  to_local_hm_from_submitted sample_env "2024-03-05t04:00:00" = Some "04:00" /\
  to_local_hm_from_submitted sample_env "2024-03-05  04:00:00" = Some "04:00" /\
  to_local_hm_from_submitted sample_env "2024-3-5 4:0:0" = Some "04:00" /\
  to_local_hm_from_submitted sample_env "2024-03-05 23:59:60" = Some "2024-03-05 23:59:60" /\
  to_local_hm_from_submitted sample_env "2024-02-30 04:00:00" = Some "2024-02-30 04:00:00" /\
  to_local_hm_from_submitted sample_env "2024-03-05T20:30:00" = Some "01:30" /\
  to_local_hm_from_submitted sample_env "9999-12-31T19:00:00" = None.
Proof. vm_compute. repeat split; reflexivity. Qed.
